(** * oioioi: the web-facing views of the contest system

  A shallow embedding of the request handlers of
  [oioioi/contests/views.py], [oioioi/teachers/views.py] and of the
  admin action of [oioioi/programs/admin.py].

  A view is a computation over a [World] (the database tables, the
  message storage of the request, the mail outbox and the trace of calls
  into the contest controller) that returns a response or raises one of
  the exceptions the views raise. *)

From Stdlib Require Import ZArith String Ascii List Bool Lia.
From Stdlib Require Import Sorting.Permutation Sorting.Sorted.
From Stdlib Require OrdersEx DecimalString.
From stdpp Require Import base option list strings gmap.

Local Open Scope Z_scope.
Local Open Scope string_scope.
Local Open Scope list_scope.

(** ** Python: exceptions, results and the builtins the views use *)

Module Python.

Inductive exn :=
| Http404
| PermissionDenied
| SuspiciousOperation
| MultipleObjectsReturned
| AttributeError
| IndexError
| KeyError
| ValueError
| ObjectDoesNotExist
| IntegrityError.

Inductive result (A : Type) :=
| Ok (a : A)
| Raise (e : exn).
Arguments Ok {A} a.
Arguments Raise {A} e.

(** [sys.maxint] of a 64-bit CPython 2. *)
Definition sys_maxint : Z := 9223372036854775807.
#[global] Arguments sys_maxint : simpl never.

(** [l.index(x)]: the position of the first element equal to [x];
    [None] stands for the [ValueError] of a missing element. *)
Fixpoint list_index {A} `{EqDecision A} (x : A) (l : list A) : option Z :=
  match l with
  | [] => None
  | y :: l' =>
      if decide (y = x) then Some 0
      else match list_index x l' with
           | Some i => Some (1 + i)
           | None => None
           end
  end.

(** Comparison of the tuples [(int, (int, str))] that [sort_key] builds:
    lexicographic, strings by their code units. *)
Definition key : Type := Z * (Z * string).

Definition str_le (a b : string) : bool := String.leb a b.

Definition ext_le (a b : Z * string) : bool :=
  (a.1 <? b.1)%Z || ((a.1 =? b.1)%Z && str_le a.2 b.2).

Definition key_le (a b : key) : bool :=
  (a.1 <? b.1)%Z || ((a.1 =? b.1)%Z && ext_le a.2 b.2).

Definition key_lt (a b : key) : bool := negb (key_le b a).

(** [sorted(l, key=f)]: a stable sort; the order of the result is fixed by
    stability, so the insertion sort below computes what Python's does. *)
Fixpoint insort {A} (f : A → key) (x : A) (l : list A) : list A :=
  match l with
  | [] => [x]
  | y :: l' =>
      if key_le (f x) (f y) then x :: y :: l' else y :: insort f x l'
  end.

Definition sorted {A} (f : A → key) (l : list A) : list A :=
  foldr (insort f) [] l.

(** [l[0]] *)
Definition item0 {A} (l : list A) : result A :=
  match l with
  | [] => Raise IndexError
  | x :: _ => Ok x
  end.

End Python.
Export Python.

(** ** Django: requests, responses, messages and the ORM operations *)

Module Django.

(** *** Query dictionaries *)

(** [QueryDict.__getitem__] returns the last value of the key's list, and
    the empty list when that list is empty. *)
Inductive qvalue :=
| QStr (s : string)
| QEmptyList.

Definition last_value (l : list string) : qvalue :=
  match last l with
  | Some s => QStr s
  | None => QEmptyList
  end.

(** [q[k]]; [None] stands for [KeyError]. *)
Definition QueryDict_getitem (q : gmap string (list string)) (k : string)
  : option qvalue :=
  last_value <$> q !! k.

(** [q.dict()] *)
Definition QueryDict_dict (q : gmap string (list string))
  : gmap string qvalue :=
  last_value <$> q.

(** *** Model instances: the fields the views read or write *)

Record User := {
  user_id : Z;
  is_authenticated : bool;
  is_superuser : bool;
  user_perms : list string;
  email : string }.

(** [user.has_perm(perm)] of an active user: a superuser has every
    permission, another user those the backends grant. *)
Definition has_perm (u : User) (perm : string) : bool :=
  is_superuser u || bool_decide (perm ∈ user_perms u).

(** Modelled from the spec: the model classes of [oioioi.contests.models],
    [oioioi.problems.models] and [oioioi.teachers.models] are not among the
    sources. The entities are persisted records; each has its primary key
    and the fields that the views read or write. *)
Record Contest := {
  cid : string;
  controller_name : string }.

Record Round := {
  round_id : Z;
  round_contest_id : string }.

Record ProblemInstance := {
  pi_id : Z;
  pi_round_id : Z;
  pi_short_name : string;
  pi_problem_id : Z }.

Record ProblemStatement := {
  ps_id : Z;
  ps_problem_id : Z;
  language : option string;
  extension : string;
  ps_content : string }.

Record ProblemAttachment := {
  pa_id : Z;
  pa_problem_id : Z;
  pa_content : string }.

Record Submission := {
  sub_id : Z;
  sub_problem_instance_id : Z;
  sub_date : Z;
  sub_kind : string }.

Record SubmissionReport := {
  report_id : Z;
  report_submission_id : Z;
  report_status : string }.

Record RegistrationConfig := {
  rc_pk : Z;
  rc_contest_id : string;
  rc_is_active : bool;
  rc_key : string }.

Record Teacher := {
  teacher_pk : Z;
  teacher_user_id : Z;
  teacher_is_active : bool }.

Record Pupil := {
  pupil_pk : Z;
  pupil_contest_id : string;
  pupil_user_id : Z }.

Record ContestTeacher := {
  ct_pk : Z;
  ct_contest_id : string;
  ct_teacher_pk : Z }.

Record DB := {
  users : list User;
  rounds : list Round;
  problem_instances : list ProblemInstance;
  problem_statements : list ProblemStatement;
  problem_attachments : list ProblemAttachment;
  submissions : list Submission;
  submission_reports : list SubmissionReport;
  registration_configs : list RegistrationConfig;
  teachers : list Teacher;
  pupils : list Pupil;
  contest_teachers : list ContestTeacher }.

Definition set_registration_configs (l : list RegistrationConfig) (d : DB) : DB :=
  {| users := users d; rounds := rounds d;
     problem_instances := problem_instances d;
     problem_statements := problem_statements d;
     problem_attachments := problem_attachments d;
     submissions := submissions d;
     submission_reports := submission_reports d;
     registration_configs := l;
     teachers := teachers d; pupils := pupils d;
     contest_teachers := contest_teachers d |}.

Definition set_teachers (l : list Teacher) (d : DB) : DB :=
  {| users := users d; rounds := rounds d;
     problem_instances := problem_instances d;
     problem_statements := problem_statements d;
     problem_attachments := problem_attachments d;
     submissions := submissions d;
     submission_reports := submission_reports d;
     registration_configs := registration_configs d;
     teachers := l; pupils := pupils d;
     contest_teachers := contest_teachers d |}.

Definition set_pupils (l : list Pupil) (d : DB) : DB :=
  {| users := users d; rounds := rounds d;
     problem_instances := problem_instances d;
     problem_statements := problem_statements d;
     problem_attachments := problem_attachments d;
     submissions := submissions d;
     submission_reports := submission_reports d;
     registration_configs := registration_configs d;
     teachers := teachers d; pupils := l;
     contest_teachers := contest_teachers d |}.

(** *** Requests *)

Record Request := {
  user : User;
  contest : option Contest;
  method : string;
  GET : gmap string (list string);
  POST : gmap string (list string);
  FILES : gmap string string }.

(** [key in request.REQUEST] and [request.REQUEST[key]]: the merge of
    [POST] and [GET], [POST] first. *)
Definition REQUEST_contains (request : Request) (k : string) : bool :=
  bool_decide (is_Some (POST request !! k))
  || bool_decide (is_Some (GET request !! k)).

Definition REQUEST_getitem (request : Request) (k : string) : option qvalue :=
  match QueryDict_getitem (POST request) k with
  | Some v => Some v
  | None => QueryDict_getitem (GET request) k
  end.

(** *** Forms *)

Record Form := {
  form_request : Request;
  form_data : option (gmap string (list string) * gmap string string) }.

Record CleanedData := {
  cd_problem_instance : ProblemInstance;
  cd_fields : gmap string string }.

(** *** URLs, template contexts, texts and responses *)

Inductive arg :=
| AStr (s : string)
| AInt (z : Z).

(** [reverse(view, kwargs=...)], made absolute by
    [request.build_absolute_uri]. *)
Record Url := {
  url_view : string;
  url_kwargs : list (string * arg);
  url_absolute : bool }.

Definition reverse (view : string) (kwargs : list (string * arg)) : Url :=
  {| url_view := view; url_kwargs := kwargs; url_absolute := false |}.

Definition build_absolute_uri (u : Url) : Url :=
  {| url_view := url_view u; url_kwargs := url_kwargs u;
     url_absolute := true |}.

Inductive ctxval :=
| VBool (b : bool)
| VStr (s : string)
| VStrs (l : list string)
| VUrl (u : Url)
| VProblemInstance (pi : ProblemInstance)
| VForm (f : Form)
| VSubmission (s : Submission)
| VReports (l : list SubmissionReport)
| VTeacher (t : Teacher).

(** Texts are kept symbolic: a translated message id, its [%]
    formatting, a rendered template, and the one-line form
    [' '.join(t.strip().splitlines())] of a text. *)
Inductive text :=
| Translated (msgid : string)
| Formatted (t : text) (args : list (string * arg))
| Rendered (template : string) (context : list (string * ctxval))
| OneLine (t : text).

Inductive Response :=
| TemplateResponse (template : string) (context : list (string * ctxval))
| HttpResponseRedirect (u : Url)
| HttpResponseNotAllowed (permitted : list string)
| RedirectToLogin
| StreamFile (content : string)
| NoResponse.

(** [redirect(view, **kwargs)] *)
Definition redirect (view : string) (kwargs : list (string * arg)) : Response :=
  HttpResponseRedirect (reverse view kwargs).

(** [stream_file(content)] of [oioioi.filetracker.utils] *)
Definition stream_file (content : string) : Response := StreamFile content.

(** *** Messages and mail *)

Inductive Level := INFO | SUCCESS | ERROR.

Record Message := {
  level : Level;
  message : text }.

Record Email := {
  email_to : User;
  email_subject : text;
  email_body : text }.

(** *** Calls into the contest controller *)

Inductive Call :=
| CallCreateSubmission (request : Request) (pi : ProblemInstance)
    (cleaned_data : CleanedData)
| CallJudge (s : Submission) (extra_args : gmap string qvalue)
| CallChangeSubmissionKind (s : Submission) (kind : string).

(** *** The world a view runs in *)

Record World := {
  db : DB;
  messages : list Message;
  outbox : list Email;
  calls : list Call }.

Definition M (A : Type) : Type := World → result A * World.

#[global] Instance M_ret : MRet M := λ A a w, (Ok a, w).

#[global] Instance M_bind : MBind M := λ A B f m w,
  match m w with
  | (Ok a, w') => f a w'
  | (Raise e, w') => (Raise e, w')
  end.

Definition raise {A} (e : exn) : M A := λ w, (Raise e, w).

Definition lift {A} (r : result A) : M A := λ w, (r, w).

Definition get_db : M DB := λ w, (Ok (db w), w).

Definition modify_db (f : DB → DB) : M unit := λ w,
  (Ok (), {| db := f (db w); messages := messages w;
             outbox := outbox w; calls := calls w |}).

(** An operation of the ORM that may fail and may write. *)
Definition on_db {A} (f : DB → result A * DB) : M A := λ w,
  let '(r, d) := f (db w) in
  (r, {| db := d; messages := messages w; outbox := outbox w;
         calls := calls w |}).

(** [messages.info], [messages.success], [messages.error] *)
Definition add_message (l : Level) (t : text) : M unit := λ w,
  (Ok (), {| db := db w;
             messages := messages w ++ [{| level := l; message := t |}];
             outbox := outbox w; calls := calls w |}).

(** [user.email_user(subject, body)] *)
Definition email_user (u : User) (subject body : text) : M unit := λ w,
  (Ok (), {| db := db w; messages := messages w;
             outbox := outbox w ++ [{| email_to := u;
                                       email_subject := subject;
                                       email_body := body |}];
             calls := calls w |}).

(** A call of a controller method that acts on the database. *)
Definition call_controller (c : Call) (effect : DB → DB) : M unit := λ w,
  (Ok (), {| db := effect (db w); messages := messages w;
             outbox := outbox w; calls := calls w ++ [c] |}).

(** *** The ORM *)

Inductive got (A : Type) :=
| DoesNotExist
| Got (a : A)
| Multiple.
Arguments DoesNotExist {A}.
Arguments Got {A} a.
Arguments Multiple {A}.

(** [Model.objects.get(...)] over the rows that satisfy the lookup. *)
Definition objects_get {A} (lookup : A → bool) (rows : list A) : got A :=
  match List.filter lookup rows with
  | [] => DoesNotExist
  | [a] => Got a
  | _ => Multiple
  end.

Definition get_object_or_404 {A} (lookup : A → bool) (rows : list A)
  : result A :=
  match objects_get lookup rows with
  | DoesNotExist => Raise Http404
  | Got a => Ok a
  | Multiple => Raise MultipleObjectsReturned
  end.

(** The key of a freshly inserted row. *)
Definition next_pk {A} (pk : A → Z) (rows : list A) : Z :=
  1 + foldr Z.max 0 (map pk rows).

(** [Model.objects.get_or_create(...)]: the row, whether it was created,
    and the table afterwards. *)
Definition get_or_create {A} (lookup : A → bool) (pk : A → Z)
    (make : Z → A) (rows : list A) : result (A * bool) * list A :=
  match objects_get lookup rows with
  | Got a => (Ok (a, false), rows)
  | Multiple => (Raise MultipleObjectsReturned, rows)
  | DoesNotExist =>
      let a := make (next_pk pk rows) in (Ok (a, true), rows ++ [a])
  end.

(** [instance.save()]: update the row of that key, insert when there is
    none. *)
Definition save {A} (pk : A → Z) (x : A) (rows : list A) : list A :=
  if existsb (λ r, pk r =? pk x)%Z rows
  then map (λ r, if (pk r =? pk x)%Z then x else r) rows
  else rows ++ [x].

(** *** Decorators of the framework *)

(** [django.views.decorators.http.require_POST] *)
Definition require_POST (view : Request → M Response) (request : Request)
  : M Response :=
  if String.eqb (method request) "POST" then view request
  else mret (HttpResponseNotAllowed ["POST"]).

(** [django.contrib.auth.decorators.user_passes_test] *)
Definition user_passes_test (test : User → bool)
    (view : Request → M Response) (request : Request) : M Response :=
  if test (user request) then view request else mret RedirectToLogin.

(** [django.contrib.auth.decorators.login_required] *)
Definition login_required (view : Request → M Response) : Request → M Response :=
  user_passes_test is_authenticated view.

End Django.
Export Django.

(** ** The contest system: what the views take from the rest of oioioi *)

Module Oioioi.

(** The controller of a contest, [request.contest.controller]: the
    queries are functions of the database, the mutators are given by
    their effect on it. *)
Record Controller := {
  can_see_problem : DB → Request → ProblemInstance → bool;
  filter_visible_reports :
    DB → Request → Submission → list SubmissionReport → list SubmissionReport;
  render_submission : DB → Request → Submission → string;
  render_submission_footer : DB → Request → Submission → string;
  render_report : DB → Request → SubmissionReport → string;
  valid_kinds_for_submission : DB → Submission → list string;
  create_submission : Request → ProblemInstance → CleanedData → DB → DB;
  judge : Submission → gmap string qvalue → DB → DB;
  change_submission_kind : Submission → string → DB → DB }.

(** The installation, for what the views take from modules that are not
    among the sources: the settings, the controllers, the helpers of
    [oioioi.contests.utils], the submission form of [oioioi.contests.forms],
    the default and the class attribute of the teachers' models, and the
    database's [ORDER BY]. *)
Record Site := {
  LANGUAGES : list (string * string);
  get_language : Request → string;
  controller : Contest → Controller;
  contest_exists : DB → Request → bool;
  can_enter_contest : DB → Request → bool;
  is_contest_admin : DB → Request → bool;
  has_any_submittable_problem : DB → Request → bool;
  visible_problem_instances : DB → Request → list ProblemInstance;
  get_submission_or_404 : DB → Request → string → string → result Submission;
  SubmissionForm_is_valid : DB → Form → bool;
  SubmissionForm_cleaned_data : DB → Form → CleanedData;
  Teacher_is_active_default : bool;
  ContestTeacher_get_or_create :
    option Contest → Teacher → DB → result unit * DB;
  order_by_date : list Submission → list Submission }.

(** [request.contest.<attribute>] *)
Definition request_contest (request : Request) : M Contest :=
  match contest request with
  | Some c => mret c
  | None => raise AttributeError
  end.

(** [c1 & c2] on conditions *)
Definition cond_and (c1 c2 : DB → Request → bool) : DB → Request → bool :=
  λ d request, c1 d request && c2 d request.

(** Modelled from the spec: [enforce_condition] of
    [oioioi.base.permissions] is not among the sources. The view runs only
    when the condition holds; a failure is the forbidden signal, or the
    given template when the decorator names one. *)
Definition enforce_condition (condition : DB → Request → bool)
    (template : option string) (view : Request → M Response)
    (request : Request) : M Response :=
  d ← get_db;
  if condition d request then view request
  else match template with
       | Some t => mret (TemplateResponse t [])
       | None => raise PermissionDenied
       end.

End Oioioi.
Export Oioioi.

(** ** [oioioi/contests/views.py] *)

Module contests_views.
Section Views.
Context (site : Site).

Definition lang_prefs (request : Request) : list (option string) :=
  [Some (get_language site request)] ++ [Some ""; None]
    ++ map (λ l, Some l.1) (LANGUAGES site).

Definition ext_prefs : list string := [".pdf"; ".ps"; ".html"; ".txt"].

Definition sort_key (request : Request) (statement : ProblemStatement) : key :=
  let lang_pref :=
    match list_index (language statement) (lang_prefs request) with
    | Some i => i
    | None => sys_maxint
    end in
  let ext_pref :=
    match list_index (extension statement) ext_prefs with
    | Some i => (i, "")
    | None => (sys_maxint, extension statement)
    end in
  (lang_pref, ext_pref).

(** The lookup [round__contest=request.contest, short_name=...]. *)
Definition in_contest_with_name (d : DB) (c : option Contest)
    (short_name : string) (pi : ProblemInstance) : bool :=
  existsb (λ r, (round_id r =? pi_round_id pi)%Z
                && bool_decide (Some (round_contest_id r) = cid <$> c))
          (rounds d)
  && String.eqb (pi_short_name pi) short_name.

Definition problem_statement_view_func (contest_id problem_instance : string)
    (request : Request) : M Response :=
  c ← request_contest request;
  let controller := controller site c in
  d ← get_db;
  pi ← lift (get_object_or_404
               (in_contest_with_name d (contest request) problem_instance)
               (problem_instances d));
  if negb (can_see_problem controller d request pi)
  then raise PermissionDenied
  else
    let statements :=
      List.filter (λ s, (ps_problem_id s =? pi_problem_id pi)%Z)
                  (problem_statements d) in
    match statements with
    | [] => mret (TemplateResponse "contests/no_problem_statement.html"
                    [("problem_instance", VProblemInstance pi)])
    | _ =>
        statement ← lift (item0 (sorted (sort_key request) statements));
        mret (stream_file (ps_content statement))
    end.

Definition problem_statement_view (contest_id problem_instance : string)
  : Request → M Response :=
  enforce_condition (cond_and (contest_exists site) (can_enter_contest site))
    None (problem_statement_view_func contest_id problem_instance).

Definition submit_view_func (contest_id : string) (request : Request)
  : M Response :=
  if String.eqb (method request) "POST" then
    let form := {| form_request := request;
                   form_data := Some (POST request, FILES request) |} in
    d ← get_db;
    if SubmissionForm_is_valid site d form then
      c ← request_contest request;
      let cleaned_data := SubmissionForm_cleaned_data site d form in
      call_controller
        (CallCreateSubmission request (cd_problem_instance cleaned_data)
           cleaned_data)
        (create_submission (controller site c) request
           (cd_problem_instance cleaned_data) cleaned_data);;
      mret (redirect "my_submissions" [("contest_id", AStr contest_id)])
    else
      mret (TemplateResponse "contests/submit.html" [("form", VForm form)])
  else
    let form := {| form_request := request; form_data := None |} in
    mret (TemplateResponse "contests/submit.html" [("form", VForm form)]).

Definition submit_view (contest_id : string) : Request → M Response :=
  enforce_condition (cond_and (contest_exists site) (can_enter_contest site))
    None
    (enforce_condition (has_any_submittable_problem site)
       (Some "contests/nothing_to_submit.html")
       (submit_view_func contest_id)).

Definition submission_view_func (contest_id submission_id : string)
    (request : Request) : M Response :=
  d ← get_db;
  submission ← lift (get_submission_or_404 site d request contest_id
                       submission_id);
  c ← request_contest request;
  let controller := controller site c in
  let header := render_submission controller d request submission in
  let footer := render_submission_footer controller d request submission in
  let queryset :=
    List.filter (λ r, (report_submission_id r =? sub_id submission)%Z)
                (submission_reports d) in
  let reports :=
    map (render_report controller d request)
        (filter_visible_reports controller d request submission
           (List.filter (λ r, String.eqb (report_status r) "ACTIVE")
                        queryset)) in
  let all_reports :=
    if is_contest_admin site d request then
      match filter_visible_reports controller d request submission queryset with
      | [] => []
      | visible => visible
      end
    else [] in
  mret (TemplateResponse "contests/submission.html"
          [("submission", VSubmission submission);
           ("header", VStr header); ("footer", VStr footer);
           ("reports", VStrs reports);
           ("all_reports", VReports all_reports)]).

Definition submission_view (contest_id submission_id : string)
  : Request → M Response :=
  enforce_condition (cond_and (contest_exists site) (can_enter_contest site))
    None (submission_view_func contest_id submission_id).

Definition rejudge_submission_view_func (contest_id submission_id : string)
    (request : Request) : M Response :=
  d ← get_db;
  submission ← lift (get_submission_or_404 site d request contest_id
                       submission_id);
  c ← request_contest request;
  let controller := controller site c in
  call_controller
    (CallJudge submission (QueryDict_dict (GET request)))
    (judge controller submission (QueryDict_dict (GET request)));;
  add_message INFO (Translated "Rejudge request received.");;
  mret (redirect "submission" [("contest_id", AStr contest_id);
                               ("submission_id", AStr submission_id)]).

Definition rejudge_submission_view (contest_id submission_id : string)
  : Request → M Response :=
  enforce_condition (cond_and (contest_exists site) (is_contest_admin site))
    None
    (require_POST (rejudge_submission_view_func contest_id submission_id)).

Definition change_submission_kind_view_func
    (contest_id submission_id kind : string) (request : Request)
  : M Response :=
  d ← get_db;
  submission ← lift (get_submission_or_404 site d request contest_id
                       submission_id);
  c ← request_contest request;
  let controller := controller site c in
  (if bool_decide (kind ∈ valid_kinds_for_submission controller d submission)
   then
     call_controller (CallChangeSubmissionKind submission kind)
       (change_submission_kind controller submission kind);;
     add_message SUCCESS (Translated "Submission kind has been changed.")
   else
     add_message ERROR
       (Formatted
          (Translated
             "%(kind)s is not valid kind for submission %(submission_id)d.")
          [("kind", AStr kind);
           ("submission_id", AInt (sub_id submission))]));;
  mret (redirect "submission" [("contest_id", AStr contest_id);
                               ("submission_id", AStr submission_id)]).

Definition change_submission_kind_view
    (contest_id submission_id kind : string) : Request → M Response :=
  enforce_condition (cond_and (contest_exists site) (is_contest_admin site))
    None
    (require_POST
       (change_submission_kind_view_func contest_id submission_id kind)).

Definition problem_attachment_view_func (contest_id : string)
    (attachment_id : Z) (request : Request) : M Response :=
  d ← get_db;
  attachment ← lift (get_object_or_404
                       (λ a, (pa_id a =? attachment_id)%Z)
                       (problem_attachments d));
  let problem_instances := visible_problem_instances site d request in
  let problem_ids := map pi_problem_id problem_instances in
  if negb (bool_decide (pa_problem_id attachment ∈ problem_ids))
  then raise PermissionDenied
  else mret (stream_file (pa_content attachment)).

Definition problem_attachment_view (contest_id : string) (attachment_id : Z)
  : Request → M Response :=
  enforce_condition (cond_and (contest_exists site) (can_enter_contest site))
    None (problem_attachment_view_func contest_id attachment_id).

End Views.
End contests_views.

(** ** [oioioi/teachers/views.py] *)

Module teachers_views.
Section Views.
Context (site : Site).

(** [teacher.user]: the row the foreign key points to. *)
Definition teacher_user (teacher : Teacher) : M User :=
  d ← get_db;
  match List.find (λ u, (user_id u =? teacher_user_id teacher)%Z) (users d) with
  | Some u => mret u
  | None => raise ObjectDoesNotExist
  end.

Definition send_acceptance_email (request : Request) (teacher : Teacher)
  : M unit :=
  let context :=
    [("teacher", VTeacher teacher);
     ("new_contest_link",
      VUrl (build_absolute_uri
              (reverse "oioioiadmin:contests_contest_add" [])))] in
  let subject := Rendered "teachers/acceptance_email_subject.txt" context in
  let subject := OneLine subject in
  let body := Rendered "teachers/acceptance_email.txt" context in
  u ← teacher_user teacher;
  email_user u subject body.

(** [Teacher.objects.get_or_create(user=user)] *)
Definition Teacher_get_or_create (u : User) : M (Teacher * bool) :=
  on_db (λ d,
    let '(r, rows) :=
      get_or_create (λ t, (teacher_user_id t =? user_id u)%Z) teacher_pk
        (λ pk, {| teacher_pk := pk; teacher_user_id := user_id u;
                  teacher_is_active := Teacher_is_active_default site |})
        (teachers d) in
    (r, set_teachers rows d)).

Definition set_teacher_is_active (b : bool) (t : Teacher) : Teacher :=
  {| teacher_pk := teacher_pk t; teacher_user_id := teacher_user_id t;
     teacher_is_active := b |}.

Definition accept_teacher_view_func (uid : Z) (request : Request)
  : M Response :=
  d ← get_db;
  u ← lift (get_object_or_404 (λ u, (user_id u =? uid)%Z) (users d));
  '(teacher, created) ← Teacher_get_or_create u;
  (if teacher_is_active teacher then
     add_message INFO (Translated "User already accepted.")
   else
     let teacher := set_teacher_is_active true teacher in
     modify_db (λ d, set_teachers (save teacher_pk teacher (teachers d)) d);;
     send_acceptance_email request teacher;;
     add_message SUCCESS
       (Translated "Successfully accepted and emailed the new teacher."));;
  mret (redirect "oioioiadmin:teachers_teacher_changelist" []).

Definition accept_teacher_view (uid : Z) : Request → M Response :=
  user_passes_test is_superuser (accept_teacher_view_func uid).

(** The lookup [contest=request.contest]. *)
Definition of_request_contest (request : Request) (contest_id : string)
  : bool :=
  bool_decide (Some contest_id = cid <$> contest request).

(** [Pupil.objects.get_or_create(contest=request.contest,
    user=request.user)] *)
Definition Pupil_get_or_create (request : Request) : M (Pupil * bool) :=
  match contest request with
  | None => raise IntegrityError
  | Some c =>
      on_db (λ d,
        let '(r, rows) :=
          get_or_create
            (λ p, of_request_contest request (pupil_contest_id p)
                  && (pupil_user_id p =? user_id (user request))%Z)
            pupil_pk
            (λ pk, {| pupil_pk := pk; pupil_contest_id := cid c;
                      pupil_user_id := user_id (user request) |})
            (pupils d) in
        (r, set_pupils rows d))
  end.

(** [ContestTeacher.get_or_create(contest=..., teacher=...)]: an attribute
    of the model class, taken from the site. *)
Definition ContestTeacher_class_get_or_create (request : Request)
    (teacher_obj : Teacher) : M unit :=
  on_db (ContestTeacher_get_or_create site (contest request) teacher_obj).

(** [register_as == s]; the empty list is equal to no string. *)
Definition qvalue_eq_str (v : qvalue) (s : string) : bool :=
  match v with
  | QStr s' => String.eqb s' s
  | QEmptyList => false
  end.

(** The rest of [activate_pupil_view] once [register_as] is known. *)
Definition activate_register (contest_id : string) (request : Request)
    (register_as : qvalue) : M Response :=
  (if qvalue_eq_str register_as "pupil" then
     Pupil_get_or_create request;; mret ()
   else if qvalue_eq_str register_as "teacher" then
     d ← get_db;
     teacher_obj ←
       lift (get_object_or_404
               (λ t, (teacher_user_id t =? user_id (user request))%Z)
               (teachers d));
     ContestTeacher_class_get_or_create request teacher_obj
   else raise SuspiciousOperation);;
  add_message INFO (Translated "Activation successful.");;
  mret (redirect "default_contest_view" [("contest_id", AStr contest_id)]).

Definition activate_pupil_view_func (contest_id key : string)
    (request : Request) : M Response :=
  d ← get_db;
  registration_config ←
    lift (get_object_or_404
            (λ rc, of_request_contest request (rc_contest_id rc))
            (registration_configs d));
  let key_ok := String.eqb (rc_key registration_config) key in
  if key_ok && rc_is_active registration_config then
    let is_teacher := has_perm (user request) "teachers.teacher" in
    if negb is_teacher then
      activate_register contest_id request (QStr "pupil")
    else if REQUEST_contains request "register_as" then
      match REQUEST_getitem request "register_as" with
      | Some register_as => activate_register contest_id request register_as
      | None => raise KeyError
      end
    else
      mret (TemplateResponse "teachers/activation_type.html"
              [("key", VStr key)])
  else
    mret (TemplateResponse "teachers/activation_error.html"
            [("key_ok", VBool key_ok);
             ("registration_active",
              VBool (rc_is_active registration_config))]).

Definition activate_pupil_view (contest_id key : string)
  : Request → M Response :=
  login_required (activate_pupil_view_func contest_id key).

Definition redirect_to_pupils (request : Request) : M Response :=
  c ← request_contest request;
  mret (HttpResponseRedirect
          (reverse "oioioi.teachers.views.pupils_view"
             [("contest_id", AStr (cid c))])).

Definition set_rc_is_active (b : bool) (rc : RegistrationConfig)
  : RegistrationConfig :=
  {| rc_pk := rc_pk rc; rc_contest_id := rc_contest_id rc;
     rc_is_active := b; rc_key := rc_key rc |}.

Definition set_registration_view_func (contest_id : string) (value : bool)
    (request : Request) : M Response :=
  d ← get_db;
  registration_config ←
    lift (get_object_or_404
            (λ rc, of_request_contest request (rc_contest_id rc))
            (registration_configs d));
  let registration_config := set_rc_is_active value registration_config in
  modify_db (λ d, set_registration_configs
                    (save rc_pk registration_config (registration_configs d))
                    d);;
  redirect_to_pupils request.

Definition set_registration_view (contest_id : string) (value : bool)
  : Request → M Response :=
  enforce_condition (is_contest_admin site) None
    (set_registration_view_func contest_id value).

End Views.
End teachers_views.

(** ** [oioioi/programs/admin.py] *)

Module programs_admin.
Section Admin.
Context (site : Site).

(** [ProgramSubmissionAdminMixin.submission_diff_action] *)
Definition submission_diff_action (request : Request)
    (queryset : list Submission) : M Response :=
  if negb (length queryset =? 2)%nat then
    add_message ERROR
      (Translated "You shall select exactly two submissions to diff");;
    mret NoResponse
  else
    match map sub_id (order_by_date site queryset) with
    | [id_older; id_newer] =>
        c ← request_contest request;
        mret (redirect "source_diff"
                [("contest_id", AStr (cid c));
                 ("submission1_id", AInt id_older);
                 ("submission2_id", AInt id_newer)])
    | _ => raise ValueError
    end.

End Admin.
End programs_admin.

(** ** The preference among the statements of a problem, as the
  specification words it *)

Module preference.
Section Preference.
Context (current : string) (site_languages : list string).

(** A tier is a position in a preference list; [None] comes after every
    position. *)
Definition tier_ltb (a b : option Z) : bool :=
  match a, b with
  | Some x, Some y => (x <? y)%Z
  | Some _, None => true
  | None, _ => false
  end.

Definition tier_eqb (a b : option Z) : bool :=
  match a, b with
  | Some x, Some y => (x =? y)%Z
  | None, None => true
  | _, _ => false
  end.

(** The request's current language, then the empty string, then a missing
    language, then the site's languages in order, then the others. *)
Definition lang_tier (lang : option string) : option Z :=
  match lang with
  | None => Some 2
  | Some l =>
      if String.eqb l current then Some 0
      else if String.eqb l "" then Some 1
      else Z.add 3 <$> list_index l site_languages
  end.

(** The same with the empty string and the missing language in one tier. *)
Definition lang_tier_one_blank_tier (lang : option string) : option Z :=
  match lang with
  | None => Some 1
  | Some l =>
      if String.eqb l current then Some 0
      else if String.eqb l "" then Some 1
      else Z.add 2 <$> list_index l site_languages
  end.

(** [.pdf] before [.ps] before [.html] before [.txt]; an unknown
    extension after these, the unknown ones by their string. *)
Definition ext_tier (ext : string) : option Z :=
  list_index ext [".pdf"; ".ps"; ".html"; ".txt"].

Definition ext_before (e1 e2 : string) : bool :=
  tier_ltb (ext_tier e1) (ext_tier e2)
  || (tier_eqb (ext_tier e1) (ext_tier e2)
      && match ext_tier e1 with
         | Some _ => false
         | None => String.ltb e1 e2
         end).

(** [preferred tier s1 s2]: [s1] comes strictly before [s2]. *)
Definition preferred (tier : option string → option Z)
    (s1 s2 : ProblemStatement) : bool :=
  tier_ltb (tier (language s1)) (tier (language s2))
  || (tier_eqb (tier (language s1)) (tier (language s2))
      && ext_before (extension s1) (extension s2)).

End Preference.

(** The statement view streams a statement of the problem that no other
    statement of the problem is preferred to. *)
Definition streams_most_preferred
    (tier : string → list string → option string → option Z)
    (site : Site) (contest_id problem_instance : string)
    (request : Request) (w : World) : Prop :=
  ∀ pi,
    get_object_or_404
      (contests_views.in_contest_with_name (db w) (contest request)
         problem_instance)
      (problem_instances (db w)) = Ok pi →
    let statements :=
      List.filter (λ s, (ps_problem_id s =? pi_problem_id pi)%Z)
                  (problem_statements (db w)) in
    statements ≠ [] →
    ∃ s, s ∈ statements
         ∧ (contests_views.problem_statement_view site contest_id
              problem_instance request w).1 = Ok (stream_file (ps_content s))
         ∧ ∀ s', s' ∈ statements →
                 preferred (tier (get_language site request)
                                 (map fst (LANGUAGES site)))
                           s' s = false.

End preference.

(** ** Creation of registration records, as the specification words it *)

Module activation.

(** A registration record has been created between two worlds. *)
Definition record_created (w w' : World) : Prop :=
  pupils (db w') ≠ pupils (db w)
  ∨ contest_teachers (db w') ≠ contest_teachers (db w).

(** A record is created exactly when the key is the stored one and
    registration is active. *)
Definition created_iff_key_ok_and_active (site : Site)
    (contest_id key : string) (request : Request) (w : World) : Prop :=
  ∀ cfg,
    get_object_or_404
      (λ rc, teachers_views.of_request_contest request (rc_contest_id rc))
      (registration_configs (db w)) = Ok cfg →
    record_created w
      (teachers_views.activate_pupil_view site contest_id key request w).2
    ↔ rc_key cfg = key ∧ rc_is_active cfg = true.

End activation.

(** ** The effects of accepting a teacher *)

Module acceptance.
Import teachers_views.

(** The acceptance mail for the teacher record [t] of the user [u]. *)
Definition acceptance_email (u : User) (t : Teacher) : Email :=
  let context :=
    [("teacher", VTeacher (set_teacher_is_active true t));
     ("new_contest_link",
      VUrl (build_absolute_uri
              (reverse "oioioiadmin:contests_contest_add" [])))] in
  {| email_to := u;
     email_subject :=
       OneLine (Rendered "teachers/acceptance_email_subject.txt" context);
     email_body := Rendered "teachers/acceptance_email.txt" context |}.

(** The world after the accept view, where [rows] is the teachers table
    once [t] is in it. *)
Definition after_accept (w : World) (u : User) (rows : list Teacher) (t : Teacher)
  : World :=
  if teacher_is_active t then
    {| db := set_teachers rows (db w);
       messages := messages w
                   ++ [{| level := INFO;
                          message := Translated "User already accepted." |}];
       outbox := outbox w; calls := calls w |}
  else
    {| db := set_teachers (save teacher_pk (set_teacher_is_active true t) rows)
               (db w);
       messages :=
         messages w
         ++ [{| level := SUCCESS;
                message :=
                  Translated
                    "Successfully accepted and emailed the new teacher." |}];
       outbox := outbox w ++ [acceptance_email u t];
       calls := calls w |}.

End acceptance.

(** ** A small installation, for running the views *)

Module Sample.

Definition the_contest : Contest := {| cid := "c1"; controller_name := "oi" |}.

Definition pupil_user : User :=
  {| user_id := 7; is_authenticated := true; is_superuser := false;
     user_perms := []; email := "pupil@example.com" |}.

Definition teacher_account : User :=
  {| user_id := 8; is_authenticated := true; is_superuser := false;
     user_perms := ["teachers.teacher"]; email := "teacher@example.com" |}.

Definition root : User :=
  {| user_id := 1; is_authenticated := true; is_superuser := true;
     user_perms := ["teachers.teacher"]; email := "root@example.com" |}.

Definition the_controller : Controller :=
  {| can_see_problem := λ _ _ _, true;
     filter_visible_reports := λ _ _ _ reports, reports;
     render_submission := λ _ _ _, "header";
     render_submission_footer := λ _ _ _, "footer";
     render_report := λ _ _ r, report_status r;
     valid_kinds_for_submission := λ _ _, ["NORMAL"; "IGNORED"];
     create_submission := λ _ _ _ d, d;
     judge := λ _ _ d, d;
     change_submission_kind := λ _ _ d, d |}.

Definition a_problem_instance : ProblemInstance :=
  {| pi_id := 1; pi_round_id := 1; pi_short_name := "sum";
     pi_problem_id := 10 |}.

Definition submission_a : Submission :=
  {| sub_id := 31; sub_problem_instance_id := 1; sub_date := 200;
     sub_kind := "NORMAL" |}.

Definition submission_b : Submission :=
  {| sub_id := 32; sub_problem_instance_id := 1; sub_date := 100;
     sub_kind := "NORMAL" |}.

(** [ORDER BY date] as a database may run it. *)
Fixpoint insert_by_date (s : Submission) (l : list Submission)
  : list Submission :=
  match l with
  | [] => [s]
  | s' :: l' =>
      if (sub_date s <=? sub_date s')%Z then s :: s' :: l'
      else s' :: insert_by_date s l'
  end.

Definition site_with (ctl : Controller) : Site :=
  {| LANGUAGES := [("en", "English"); ("pl", "Polish")];
     get_language := λ _, "pl";
     controller := λ _, ctl;
     contest_exists := λ _ request, bool_decide (is_Some (contest request));
     can_enter_contest := λ _ _, true;
     is_contest_admin := λ _ request, is_superuser (user request);
     has_any_submittable_problem := λ _ _, true;
     visible_problem_instances := λ d _, problem_instances d;
     get_submission_or_404 := λ d _ _ submission_id,
       if String.eqb submission_id "31" then Ok submission_a
       else Raise Http404;
     SubmissionForm_is_valid := λ _ form,
       match form_data form with
       | Some (post, _) => bool_decide (is_Some (post !! "problem_instance"))
       | None => false
       end;
     SubmissionForm_cleaned_data := λ _ _,
       {| cd_problem_instance := a_problem_instance; cd_fields := ∅ |};
     Teacher_is_active_default := false;
     ContestTeacher_get_or_create := λ _ _ d, (Raise AttributeError, d);
     order_by_date := foldr insert_by_date [] |}.

Definition the_site : Site := site_with the_controller.

(** A controller that shows no problem and accepts no kind. *)
Definition strict_controller : Controller :=
  {| can_see_problem := λ _ _ _, false;
     filter_visible_reports := λ _ _ _ reports, reports;
     render_submission := λ _ _ _, "header";
     render_submission_footer := λ _ _ _, "footer";
     render_report := λ _ _ r, report_status r;
     valid_kinds_for_submission := λ _ _, [];
     create_submission := λ _ _ _ d, d;
     judge := λ _ _ d, d;
     change_submission_kind := λ _ _ d, d |}.

Definition strict_site : Site := site_with strict_controller.

Definition statement_txt : ProblemStatement :=
  {| ps_id := 1; ps_problem_id := 10; language := Some "";
     extension := ".txt"; ps_content := "sum/statement.txt" |}.

Definition statement_pdf : ProblemStatement :=
  {| ps_id := 2; ps_problem_id := 10; language := None;
     extension := ".pdf"; ps_content := "sum/statement.pdf" |}.

Definition the_db : DB :=
  {| users := [root; pupil_user; teacher_account];
     rounds := [{| round_id := 1; round_contest_id := "c1" |}];
     problem_instances := [a_problem_instance];
     problem_statements := [statement_pdf; statement_txt];
     problem_attachments :=
       [{| pa_id := 5; pa_problem_id := 10; pa_content := "sum/a.zip" |};
        {| pa_id := 6; pa_problem_id := 11; pa_content := "other/b.zip" |}];
     submissions := [submission_a; submission_b];
     submission_reports :=
       [{| report_id := 1; report_submission_id := 31;
           report_status := "ACTIVE" |};
        {| report_id := 2; report_submission_id := 31;
           report_status := "SUPERSEDED" |}];
     registration_configs :=
       [{| rc_pk := 1; rc_contest_id := "c1"; rc_is_active := true;
           rc_key := "sesame" |}];
     teachers :=
       [{| teacher_pk := 1; teacher_user_id := 8;
           teacher_is_active := false |}];
     pupils := [];
     contest_teachers := [] |}.

Definition the_world : World :=
  {| db := the_db; messages := []; outbox := []; calls := [] |}.

Definition request_by (u : User) (m : string)
    (post : gmap string (list string)) : Request :=
  {| user := u; contest := Some the_contest; method := m; GET := ∅;
     POST := post; FILES := ∅ |}.

Definition post_of_pupil : Request :=
  request_by pupil_user "POST" {[ "problem_instance" := ["sum"] ]}.

Definition post_of_root : Request := request_by root "POST" ∅.

End Sample.

(** ** More of Python and Django, for the other views *)

Module Python_more.




(** [l.sort(key=f)] with strings for keys: stable, as [sorted] above. *)
Fixpoint insort_str {A} (f : A → string) (x : A) (l : list A) : list A :=
  match l with
  | [] => [x]
  | y :: l' =>
      if str_le (f x) (f y) then x :: y :: l' else y :: insort_str f x l'
  end.

Definition sorted_str {A} (f : A → string) (l : list A) : list A :=
  foldr (insort_str f) [] l.


End Python_more.
Export Python_more.

(** ** What the other views read and answer *)

Module Pages.

(** Modelled from the spec: [ContestAttachment] of [oioioi.contests.models]
    is not among the sources; the record has the fields that the views
    read. *)
Record ContestAttachment := {
  ca_id : Z;
  ca_contest_id : string;
  ca_filename : string;
  ca_description : string;
  ca_content : string }.

(** What these views read beyond the [DB] above, and what they take from
    modules that are not among the sources: the contests and their
    attachments; the columns of a problem attachment that its record does
    not hold and the name of its problem; [not_anonymous] of
    [oioioi.base.permissions]; a permission on a contest; the querysets
    over the relations of the teachers' models; the fields of a new
    registration config and its [generate_key]; the copy of the contest
    teachers of another contest. *)
Record Store := {
  contests : list Contest;
  contest_attachments : list ContestAttachment;
  pa_filename : ProblemAttachment → string;
  pa_description : ProblemAttachment → string;
  problem_unicode : Z → string;
  not_anonymous : DB → Request → bool;
  has_perm_on : User → string → Contest → bool;
  teachers_of : DB → option Contest → list User;
  pupils_of : DB → option Contest → list User;
  other_contests_of : DB → Request → list Contest;
  new_config_is_active : bool;
  new_config_key : DB → Contest → string;
  generate_key : DB → RegistrationConfig → string;
  copy_contest_teachers :
    Contest → option Contest → list ContestTeacher
    → result unit * list ContestTeacher }.

(** A row of the files page. *)
Record FileRow := {
  row_name : string;
  row_description : string;
  row_link : Url }.

Inductive pageval :=
| PVal (v : ctxval)
| PProblemInstances (l : list ProblemInstance)
| PFiles (rows : list FileRow)
| PUsers (l : list User)
| PContests (l : list Contest)
| PRegistrationConfig (rc : RegistrationConfig).

(** The answers of these views: a response as above, a template with its
    context, or [HttpResponse(body)]. *)
Inductive Reply :=
| Plain (r : Response)
| Page (template : string) (context : list (string * pageval))
| HttpResponse (body : string).

(** [enforce_condition], as above, around a view that answers a [Reply]. *)
Definition enforce_condition_reply (condition : DB → Request → bool)
    (template : option string) (view : Request → M Reply)
    (request : Request) : M Reply :=
  d ← get_db;
  if condition d request then view request
  else match template with
       | Some t => mret (Plain (TemplateResponse t []))
       | None => raise PermissionDenied
       end.


End Pages.
Export Pages.

(** ** More of [oioioi/contests/views.py] *)

Module contests_pages.
Section Views.
Context (site : Site) (store : Store).

Definition problems_list_view_func (contest_id : string) (request : Request)
  : M Reply :=
  d ← get_db;
  let problem_instances := visible_problem_instances site d request in
  let show_rounds :=
    (1 <? size (list_to_set (map pi_round_id problem_instances) : gset Z))%nat
  in
  mret (Page "contests/problems_list.html"
          [("problem_instances", PProblemInstances problem_instances);
           ("show_rounds", PVal (VBool show_rounds))]).

Definition problems_list_view (contest_id : string) : Request → M Reply :=
  enforce_condition_reply
    (cond_and (contest_exists site) (can_enter_contest site)) None
    (problems_list_view_func contest_id).

Definition report_view_func (contest_id submission_id : string) (rid : Z)
    (request : Request) : M Reply :=
  d ← get_db;
  submission ← lift (get_submission_or_404 site d request contest_id
                       submission_id);
  c ← request_contest request;
  let controller := controller site c in
  let queryset :=
    List.filter (λ r, (report_submission_id r =? sub_id submission)%Z)
                (submission_reports d) in
  report ← lift (get_object_or_404 (λ r, (report_id r =? rid)%Z) queryset);
  mret (HttpResponse (render_report controller d request report)).

Definition report_view (contest_id submission_id : string) (rid : Z)
  : Request → M Reply :=
  enforce_condition_reply
    (cond_and (contest_exists site) (is_contest_admin site)) None
    (report_view_func contest_id submission_id rid).

(** The rows of the files page, before they are sorted. *)
Definition contest_file_row (contest_id : string) (cf : ContestAttachment)
  : FileRow :=
  {| row_name := ca_filename cf;
     row_description := ca_description cf;
     row_link := reverse "contest_attachment"
                   [("contest_id", AStr contest_id);
                    ("attachment_id", AInt (ca_id cf))] |}.

Definition problem_file_row (contest_id : string) (pf : ProblemAttachment)
  : FileRow :=
  {| row_name := pa_filename store pf;
     row_description :=
       problem_unicode store (pa_problem_id pf) +:+ ": "
       +:+ pa_description store pf;
     row_link := reverse "problem_attachment"
                   [("contest_id", AStr contest_id);
                    ("attachment_id", AInt (pa_id pf))] |}.

Definition contest_files_view_func (contest_id : string) (request : Request)
  : M Reply :=
  d ← get_db;
  let contest_files :=
    List.filter
      (λ cf, bool_decide (Some (ca_contest_id cf) = cid <$> contest request))
      (contest_attachments store) in
  let problem_instances := visible_problem_instances site d request in
  let problem_ids := map pi_problem_id problem_instances in
  let problem_files :=
    List.filter (λ pf, bool_decide (pa_problem_id pf ∈ problem_ids))
                (problem_attachments d) in
  let rows := map (contest_file_row contest_id) contest_files in
  let rows := rows ++ map (problem_file_row contest_id) problem_files in
  let rows := sorted_str row_name rows in
  mret (Page "contests/files.html" [("files", PFiles rows)]).

Definition contest_files_view (contest_id : string) : Request → M Reply :=
  enforce_condition_reply
    (cond_and (cond_and (not_anonymous store) (contest_exists site))
       (can_enter_contest site)) None
    (contest_files_view_func contest_id).

Definition contest_attachment_view_func (contest_id : string)
    (attachment_id : Z) (request : Request) : M Response :=
  attachment ← lift (get_object_or_404
                       (λ a, String.eqb (ca_contest_id a) contest_id
                             && (ca_id a =? attachment_id)%Z)
                       (contest_attachments store));
  mret (stream_file (ca_content attachment)).

Definition contest_attachment_view (contest_id : string) (attachment_id : Z)
  : Request → M Response :=
  enforce_condition (cond_and (contest_exists site) (can_enter_contest site))
    None (contest_attachment_view_func contest_id attachment_id).

End Views.
End contests_pages.

(** ** More of [oioioi/teachers/views.py] *)

Module teachers_pages.
Section Views.
Context (site : Site) (store : Store).

Import teachers_views.




Definition set_rc_key (k : string) (rc : RegistrationConfig)
  : RegistrationConfig :=
  {| rc_pk := rc_pk rc; rc_contest_id := rc_contest_id rc;
     rc_is_active := rc_is_active rc; rc_key := k |}.

Definition regenerate_key_view_func (contest_id : string) (request : Request)
  : M Response :=
  d ← get_db;
  registration_config ←
    lift (get_object_or_404
            (λ rc, of_request_contest request (rc_contest_id rc))
            (registration_configs d));
  let registration_config :=
    set_rc_key (generate_key store d registration_config)
      registration_config in
  modify_db (λ d, set_registration_configs
                    (save rc_pk registration_config (registration_configs d))
                    d);;
  redirect_to_pupils request.

Definition regenerate_key_view (contest_id : string) : Request → M Response :=
  enforce_condition (is_contest_admin site) None
    (regenerate_key_view_func contest_id).





End Views.
End teachers_pages.

(** ** More of [oioioi/programs/admin.py]: the links of the inlines *)

Module programs_inlines.










End programs_inlines.

(** ** A store and a database with pupils, for running the other views *)

Module Sample_pages.
Import Sample.

Definition other_contest : Contest :=
  {| cid := "c0"; controller_name := "oi" |}.

Definition the_store : Store :=
  {| contests := [the_contest; other_contest];
     contest_attachments :=
       [{| ca_id := 1; ca_contest_id := "c1"; ca_filename := "rules.pdf";
           ca_description := "Rules"; ca_content := "c1/rules.pdf" |};
        {| ca_id := 2; ca_contest_id := "c0"; ca_filename := "old.pdf";
           ca_description := "Old rules"; ca_content := "c0/old.pdf" |}];
     pa_filename := λ a, if (pa_id a =? 5)%Z then "a.zip" else "b.zip";
     pa_description := λ _, "tests";
     problem_unicode := λ _, "Sum";
     not_anonymous := λ _ request, is_authenticated (user request);
     has_perm_on := λ u _ _, is_superuser u;
     teachers_of := λ _ _, [];
     pupils_of := λ _ _, [];
     other_contests_of := λ _ _, [other_contest];
     new_config_is_active := true;
     new_config_key := λ _ c, cid c +:+ "-key";
     generate_key := λ _ rc, rc_key rc +:+ "-2";
     copy_contest_teachers := λ _ _ rows, (Ok (), rows) |}.


Definition get_of (u : User) : Request := request_by u "GET" ∅.

End Sample_pages.

(** * Properties *)

(** Running a view: the monad's operations, unfolded. *)
Ltac run :=
  unfold enforce_condition, require_POST, login_required, user_passes_test,
    cond_and, request_contest, call_controller, add_message, modify_db,
    on_db, email_user, lift, raise, get_db, mbind, M_bind, mret, M_ret;
  cbn beta iota.

(** Comparisons of keys and of tiers, down to those of their components. *)
Ltac tiers :=
  cbn [fst snd negb orb andb preference.tier_ltb preference.tier_eqb].

(** ** The Python builtins *)

Section python_facts.

Lemma list_index_bounds {A} `{EqDecision A} (x : A) l i :
  list_index x l = Some i → (0 ≤ i < Z.of_nat (length l))%Z.
Proof.
  revert i. induction l as [|y l IH]; intros i; simpl; [done|].
  destruct (decide (y = x)).
  - intros [= <-]. lia.
  - destruct (list_index x l) as [j|]; [|done].
    intros [= <-]. specialize (IH j eq_refl). lia.
Qed.

Lemma list_index_map_Some {A} `{EqDecision A} (x : A) l :
  list_index (Some x) (map Some l) = list_index x l.
Proof.
  induction l as [|y l IH]; simpl; [done|].
  rewrite IH. destruct (decide (Some y = Some x)), (decide (y = x));
    congruence.
Qed.

Lemma list_index_None_map_Some {A} `{EqDecision A} (l : list A) :
  list_index None (map Some l) = None.
Proof.
  induction l as [|y l IH]; simpl; [done|]. rewrite IH.
  by destruct (decide (Some y = None)).
Qed.

Lemma str_le_total a b : str_le a b = true ∨ str_le b a = true.
Proof. apply String.leb_total. Qed.

Lemma str_lt_le a b : String.ltb a b = negb (str_le b a).
Proof.
  unfold String.ltb, str_le, String.leb. rewrite (String.compare_antisym b a).
  by destruct (String.compare a b).
Qed.

Lemma str_le_trans a b c :
  str_le a b = true → str_le b c = true → str_le a c = true.
Proof.
  unfold str_le, String.leb. intros Hab Hbc.
  destruct (String.compare a b) eqn:E1; [|clear Hab|done].
  - apply String.compare_eq_iff in E1. by subst.
  - destruct (String.compare b c) eqn:E2; [|clear Hbc|done].
    + apply String.compare_eq_iff in E2. subst. by rewrite E1.
    + assert (OrdersEx.String_as_OT.lt a c) as Hac.
      { transitivity b; [exact E1|exact E2]. }
      unfold OrdersEx.String_as_OT.lt in Hac.
      change (String.compare a c = Lt) in Hac. by rewrite Hac.
Qed.

Lemma ext_le_total a b : ext_le a b = true ∨ ext_le b a = true.
Proof.
  unfold ext_le. destruct (str_le_total a.2 b.2) as [H|H]; rewrite H;
    destruct (Z.ltb_spec a.1 b.1), (Z.ltb_spec b.1 a.1),
             (Z.eqb_spec a.1 b.1), (Z.eqb_spec b.1 a.1);
    simpl; auto; lia.
Qed.

Lemma ext_le_trans a b c :
  ext_le a b = true → ext_le b c = true → ext_le a c = true.
Proof.
  unfold ext_le. intros Hab Hbc.
  destruct (Z.ltb_spec a.1 b.1), (Z.ltb_spec b.1 c.1), (Z.ltb_spec a.1 c.1),
           (Z.eqb_spec a.1 b.1), (Z.eqb_spec b.1 c.1), (Z.eqb_spec a.1 c.1);
    simpl in *; try done; try lia.
  eauto using str_le_trans.
Qed.

Lemma key_le_total a b : key_le a b = true ∨ key_le b a = true.
Proof.
  unfold key_le. destruct (ext_le_total a.2 b.2) as [H|H]; rewrite H;
    destruct (Z.ltb_spec a.1 b.1), (Z.ltb_spec b.1 a.1),
             (Z.eqb_spec a.1 b.1), (Z.eqb_spec b.1 a.1);
    simpl; auto; lia.
Qed.

Lemma key_le_trans a b c :
  key_le a b = true → key_le b c = true → key_le a c = true.
Proof.
  unfold key_le. intros Hab Hbc.
  destruct (Z.ltb_spec a.1 b.1), (Z.ltb_spec b.1 c.1), (Z.ltb_spec a.1 c.1),
           (Z.eqb_spec a.1 b.1), (Z.eqb_spec b.1 c.1), (Z.eqb_spec a.1 c.1);
    simpl in *; try done; try lia.
  eauto using ext_le_trans.
Qed.

(** The head of [sorted f l] is the first element of [l] whose key is the
    least. *)
Lemma sorted_head {A} (f : A → key) (l : list A) :
  l ≠ [] →
  ∃ x l1 l2 rest,
    l = l1 ++ x :: l2
    ∧ sorted f l = x :: rest
    ∧ (∀ y, y ∈ l → key_le (f x) (f y) = true)
    ∧ (∀ y, y ∈ l1 → key_le (f y) (f x) = false).
Proof.
  induction l as [|a l IH]; [done|]. intros _.
  destruct l as [|b l].
  - exists a, [], [], []. repeat split; [|by intros y Hy%elem_of_nil].
    intros y ->%list_elem_of_singleton.
    destruct (key_le_total (f a) (f a)); done.
  - destruct IH as (x & l1 & l2 & rest & Hl & Hs & Hmin & Hfirst); [done|].
    change (sorted f (a :: b :: l)) with (insort f a (sorted f (b :: l))).
    rewrite Hs. simpl. destruct (key_le (f a) (f x)) eqn:E.
    + exists a, [], (b :: l), (x :: rest). repeat split.
      * intros y [->|Hy]%elem_of_cons.
        -- destruct (key_le_total (f a) (f a)); done.
        -- eauto using key_le_trans.
      * by intros y Hy%elem_of_nil.
    + exists x, (a :: l1), l2, (insort f a rest). repeat split.
      * by rewrite Hl.
      * intros y [->|Hy]%elem_of_cons; [|by auto].
        destruct (key_le_total (f a) (f x)); congruence.
      * intros y [->|Hy]%elem_of_cons; auto.
Qed.

End python_facts.

(** ** The statement and attachment views *)

Section statement_view_facts.
Context (site : Site).

Import preference contests_views.

Lemma lang_prefs_index request lang :
  list_index lang (lang_prefs site request)
  = lang_tier (get_language site request) (map fst (LANGUAGES site)) lang.
Proof.
  unfold lang_prefs, lang_tier.
  replace (map (λ l : string * string, Some l.1) (LANGUAGES site))
    with (map Some (map fst (LANGUAGES site)))
    by (rewrite map_map; reflexivity).
  set (codes := map fst (LANGUAGES site)). simpl.
  destruct lang as [l|].
  - destruct (String.eqb_spec l (get_language site request)) as [->|Hc].
    + by destruct (decide (Some (get_language site request)
                           = Some (get_language site request))).
    + destruct (decide (Some (get_language site request) = Some l));
        [congruence|].
      destruct (String.eqb_spec l "") as [->|He].
      * by destruct (decide (Some "" = Some "")).
      * destruct (decide (Some "" = Some l)); [congruence|].
        destruct (decide (None = Some l)); [congruence|].
        rewrite list_index_map_Some.
        destruct (list_index l codes); simpl; [f_equal; lia|done].
  - destruct (decide (Some (get_language site request) = None)); [done|].
    destruct (decide (Some "" = None)); [done|].
    by destruct (decide (@None string = None)).
Qed.

Lemma lang_tier_bound request lang v :
  (3 + Z.of_nat (length (LANGUAGES site)) ≤ sys_maxint)%Z →
  lang_tier (get_language site request) (map fst (LANGUAGES site)) lang
  = Some v →
  (0 ≤ v < sys_maxint)%Z.
Proof.
  intros Hlen. unfold lang_tier. destruct lang as [l|].
  - destruct (String.eqb l _); [intros [= <-]; by compute|].
    destruct (String.eqb l ""); [intros [= <-]; by compute|].
    destruct (list_index l _) as [i|] eqn:E; [|done].
    apply list_index_bounds in E. rewrite length_map in E.
    intros [= <-]. lia.
  - intros [= <-]. by compute.
Qed.

Lemma ext_tier_bound ext i : ext_tier ext = Some i → (0 ≤ i < sys_maxint)%Z.
Proof.
  intros E%list_index_bounds. simpl in E. unfold sys_maxint. lia.
Qed.

(** The code's key orders the statements as the tiers do. *)
Lemma sort_key_preferred request s1 s2 :
  (3 + Z.of_nat (length (LANGUAGES site)) ≤ sys_maxint)%Z →
  key_lt (sort_key site request s1) (sort_key site request s2)
  = preferred (lang_tier (get_language site request)
                         (map fst (LANGUAGES site))) s1 s2.
Proof.
  intros Hlen. unfold key_lt, key_le, sort_key, preferred.
  rewrite !lang_prefs_index. cbn [fst snd].
  assert (∀ e1 e2,
    negb (ext_le
            match list_index e2 ext_prefs with
            | Some i => (i, "") | None => (sys_maxint, e2) end
            match list_index e1 ext_prefs with
            | Some i => (i, "") | None => (sys_maxint, e1) end)
    = ext_before e1 e2) as Hext.
  { intros e1 e2. unfold ext_before, ext_le.
    change (list_index e1 ext_prefs) with (ext_tier e1).
    change (list_index e2 ext_prefs) with (ext_tier e2).
    destruct (ext_tier e1) as [i|] eqn:E1, (ext_tier e2) as [j|] eqn:E2;
      tiers.
    - apply ext_tier_bound in E1, E2. change (str_le "" "") with true.
      destruct (Z.ltb_spec j i), (Z.eqb_spec j i), (Z.ltb_spec i j),
               (Z.eqb_spec i j); tiers; try done; lia.
    - apply ext_tier_bound in E1.
      destruct (Z.ltb_spec sys_maxint i), (Z.eqb_spec sys_maxint i);
        tiers; try done; lia.
    - apply ext_tier_bound in E2.
      destruct (Z.ltb_spec j sys_maxint); tiers; [done|lia].
    - rewrite Z.ltb_irrefl, Z.eqb_refl. tiers. by rewrite str_lt_le. }
  set (t1 := lang_tier _ _ (language s1)).
  set (t2 := lang_tier _ _ (language s2)).
  destruct t1 as [v1|] eqn:E1, t2 as [v2|] eqn:E2; tiers.
  - destruct (Z.ltb_spec v2 v1), (Z.eqb_spec v2 v1), (Z.ltb_spec v1 v2),
             (Z.eqb_spec v1 v2); tiers; try done; lia.
  - apply (lang_tier_bound request _ _ Hlen) in E1.
    destruct (Z.ltb_spec sys_maxint v1), (Z.eqb_spec sys_maxint v1);
      tiers; try done; lia.
  - apply (lang_tier_bound request _ _ Hlen) in E2.
    destruct (Z.ltb_spec v2 sys_maxint); tiers; [done|lia].
  - rewrite Z.ltb_irrefl, Z.eqb_refl. tiers. apply Hext.
Qed.

End statement_view_facts.

Section statement_view.
Context (site : Site).

Import preference contests_views.

(** C1 (amended). When the contest-entry condition holds, the problem
    instance is found and the controller lets the requester see it, and
    the problem has a statement, the view streams the first statement
    that none is preferred to, where the preference is: the request's
    current language, then the empty-string language, then a missing
    language, then the site's languages in order, then the others; and
    for equal languages .pdf, .ps, .html, .txt, then the unknown
    extensions by their string. *)
Theorem problem_statement_view_streams_preferred
    (contest_id problem_instance : string) (request : Request) (w : World)
    (c : Contest) (pi : ProblemInstance) :
  contest request = Some c →
  cond_and (contest_exists site) (can_enter_contest site) (db w) request
    = true →
  get_object_or_404
    (in_contest_with_name (db w) (contest request) problem_instance)
    (problem_instances (db w)) = Ok pi →
  can_see_problem (controller site c) (db w) request pi = true →
  (3 + Z.of_nat (length (LANGUAGES site)) ≤ sys_maxint)%Z →
  let statements :=
    List.filter (λ s, (ps_problem_id s =? pi_problem_id pi)%Z)
                (problem_statements (db w)) in
  let tier :=
    lang_tier (get_language site request) (map fst (LANGUAGES site)) in
  statements ≠ [] →
  ∃ s before after,
    statements = before ++ s :: after
    ∧ problem_statement_view site contest_id problem_instance request w
      = (Ok (stream_file (ps_content s)), w)
    ∧ (∀ s', s' ∈ statements → preferred tier s' s = false)
    ∧ (∀ s', s' ∈ before → preferred tier s s' = true).
Proof.
  intros Hc Hcond Hpi Hsee Hlen statements tier Hne.
  destruct (sorted_head (sort_key site request) statements Hne)
    as (s & before & after & rest & Hsplit & Hsorted & Hmin & Hfirst).
  exists s, before, after. split; [done|]. split; [|split].
  - unfold problem_statement_view, problem_statement_view_func. run.
    unfold cond_and in Hcond. rewrite Hcond. rewrite Hc in Hpi |- *. cbn beta iota.
    rewrite Hpi. cbn beta iota. rewrite Hsee. cbn.
    fold statements. rewrite Hsorted.
    destruct statements; [done|reflexivity].
  - intros s' Hs'. unfold tier.
    rewrite <- (sort_key_preferred site request s' s Hlen).
    unfold key_lt. by rewrite (Hmin s' Hs').
  - intros s' Hs'. unfold tier.
    rewrite <- (sort_key_preferred site request s s' Hlen).
    unfold key_lt. by rewrite (Hfirst s' Hs').
Qed.

(** C2. Under the contest-entry condition, the statement view raises
    [PermissionDenied] when the controller's [can_see_problem] is false
    for the problem instance, and the attachment view raises it when the
    attachment's problem is not a problem of a visible problem instance;
    in both cases nothing is streamed and the world is unchanged. *)
Theorem permission_failure_raises_PermissionDenied
    (contest_id problem_instance : string) (attachment_id : Z)
    (request : Request) (w : World) :
  cond_and (contest_exists site) (can_enter_contest site) (db w) request
    = true →
  (∀ c pi,
     contest request = Some c →
     get_object_or_404
       (in_contest_with_name (db w) (contest request) problem_instance)
       (problem_instances (db w)) = Ok pi →
     can_see_problem (controller site c) (db w) request pi = false →
     problem_statement_view site contest_id problem_instance request w
     = (Raise PermissionDenied, w))
  ∧ (∀ attachment,
       get_object_or_404 (λ a, (pa_id a =? attachment_id)%Z)
         (problem_attachments (db w)) = Ok attachment →
       pa_problem_id attachment
         ∉ map pi_problem_id (visible_problem_instances site (db w) request) →
       problem_attachment_view site contest_id attachment_id request w
       = (Raise PermissionDenied, w)).
Proof.
  intros Hcond. unfold cond_and in Hcond. split.
  - intros c pi Hc Hpi Hsee.
    unfold problem_statement_view, problem_statement_view_func. run.
    rewrite Hcond. rewrite Hc in Hpi |- *. cbn beta iota.
    rewrite Hpi. cbn beta iota. by rewrite Hsee.
  - intros attachment Hget Hin.
    unfold problem_attachment_view, problem_attachment_view_func. run.
    rewrite Hcond, Hget. by rewrite bool_decide_eq_false_2.
Qed.

End statement_view.

Section statement_view_examples.
Import preference contests_views Sample.

Lemma problem_statement_view_streams_preferred_witness :
  ∃ s before after,
    [statement_pdf; statement_txt] = before ++ s :: after
    ∧ problem_statement_view the_site "c1" "sum"
        (request_by pupil_user "GET" ∅) the_world
      = (Ok (stream_file (ps_content s)), the_world)
    ∧ (∀ s', s' ∈ [statement_pdf; statement_txt] →
             preferred (lang_tier "pl" ["en"; "pl"]) s' s = false)
    ∧ (∀ s', s' ∈ before →
             preferred (lang_tier "pl" ["en"; "pl"]) s s' = true).
Proof.
  apply (problem_statement_view_streams_preferred the_site "c1" "sum"
           (request_by pupil_user "GET" ∅) the_world the_contest
           a_problem_instance).
  - reflexivity.
  - reflexivity.
  - reflexivity.
  - reflexivity.
  - vm_compute. discriminate.
  - discriminate.
Defined.

(** With the empty-string and the missing language read as one tier, the
    view would have to stream the .pdf statement of the missing language;
    it streams the .txt statement of the empty-string language. *)
Lemma problem_statement_view_one_blank_tier_counterexample :
  ¬ streams_most_preferred lang_tier_one_blank_tier the_site "c1" "sum"
      (request_by pupil_user "GET" ∅) the_world.
Proof.
  intros H.
  destruct (H a_problem_instance eq_refl) as (s & Hin & Hresp & Hmin);
    [discriminate|].
  vm_compute in Hresp.
  change (s ∈ [statement_pdf; statement_txt]) in Hin.
  apply elem_of_cons in Hin as [->|Hin].
  - vm_compute in Hresp. discriminate.
  - apply list_elem_of_singleton in Hin as ->.
    specialize (Hmin statement_pdf).
    assert (statement_pdf ∈ [statement_pdf; statement_txt]) as Hpdf
      by (apply elem_of_cons; left; reflexivity).
    apply Hmin in Hpdf. vm_compute in Hpdf. discriminate.
Qed.

Lemma permission_failure_raises_PermissionDenied_witness :
  problem_statement_view strict_site "c1" "sum"
    (request_by pupil_user "GET" ∅) the_world
  = (Raise PermissionDenied, the_world)
  ∧ problem_attachment_view strict_site "c1" 6
      (request_by pupil_user "GET" ∅) the_world
    = (Raise PermissionDenied, the_world).
Proof.
  destruct (permission_failure_raises_PermissionDenied strict_site "c1"
              "sum" 6 (request_by pupil_user "GET" ∅) the_world eq_refl)
    as [Hstatement Hattachment].
  split.
  - apply (Hstatement the_contest a_problem_instance); reflexivity.
  - apply (Hattachment
             {| pa_id := 6; pa_problem_id := 11;
                pa_content := "other/b.zip" |}); [reflexivity|].
    intros Hin%(bool_decide_eq_true_2 _). vm_compute in Hin. discriminate.
Defined.

End statement_view_examples.

(** ** The submission views *)

Section submission_views.
Context (site : Site).

Import contests_views.

(** C5. A POST to the submit view with an invalid form shows the submit
    template again with the bound form and leaves the world as it was (no
    call of the controller); with a valid form the controller's
    [create_submission] is called once, with the cleaned data, and the
    response redirects to the my-submissions page. *)
Theorem submit_view_POST (contest_id : string) (request : Request)
    (w : World) (c : Contest) :
  method request = "POST" →
  contest request = Some c →
  cond_and (contest_exists site) (can_enter_contest site) (db w) request
    = true →
  has_any_submittable_problem site (db w) request = true →
  let form := {| form_request := request;
                 form_data := Some (POST request, FILES request) |} in
  let cleaned_data := SubmissionForm_cleaned_data site (db w) form in
  submit_view site contest_id request w
  = if SubmissionForm_is_valid site (db w) form
    then (Ok (redirect "my_submissions" [("contest_id", AStr contest_id)]),
          {| db := create_submission (controller site c) request
                     (cd_problem_instance cleaned_data) cleaned_data (db w);
             messages := messages w;
             outbox := outbox w;
             calls := calls w
                      ++ [CallCreateSubmission request
                            (cd_problem_instance cleaned_data)
                            cleaned_data] |})
    else (Ok (TemplateResponse "contests/submit.html"
                [("form", VForm form)]), w).
Proof.
  intros Hpost Hc Hcond Hsub form cleaned_data.
  unfold submit_view, submit_view_func. run.
  unfold cond_and in Hcond. rewrite Hcond, Hsub, Hpost. cbn beta iota.
  change (("POST" =? "POST")%string) with true. cbn beta iota.
  fold form. destruct (SubmissionForm_is_valid site (db w) form); [|done].
  by rewrite Hc.
Qed.

(** C6. For a request on an existing submission, the rejudge view calls
    the controller's [judge] once on that submission with the request's
    GET parameters, records an informational message and redirects to the
    submission's page, when the requester is a contest admin and the
    method is POST; for an admin with another method the request is
    answered "not allowed", and for others it is forbidden, and in these
    cases nothing is called. *)
Theorem rejudge_submission_view_judges_once
    (contest_id submission_id : string) (request : Request) (w : World)
    (c : Contest) (submission : Submission) :
  contest request = Some c →
  get_submission_or_404 site (db w) request contest_id submission_id
    = Ok submission →
  rejudge_submission_view site contest_id submission_id request w
  = if cond_and (contest_exists site) (is_contest_admin site) (db w) request
    then
      if String.eqb (method request) "POST"
      then (Ok (redirect "submission"
                  [("contest_id", AStr contest_id);
                   ("submission_id", AStr submission_id)]),
            {| db := judge (controller site c) submission
                       (QueryDict_dict (GET request)) (db w);
               messages := messages w
                           ++ [{| level := INFO;
                                  message :=
                                    Translated "Rejudge request received." |}];
               outbox := outbox w;
               calls := calls w
                        ++ [CallJudge submission
                              (QueryDict_dict (GET request))] |})
      else (Ok (HttpResponseNotAllowed ["POST"]), w)
    else (Raise PermissionDenied, w).
Proof.
  intros Hc Hsub.
  unfold rejudge_submission_view, rejudge_submission_view_func. run.
  destruct (contest_exists site (db w) request
            && is_contest_admin site (db w) request); [|done].
  destruct (String.eqb (method request) "POST"); [|done].
  rewrite Hsub. cbn beta iota. by rewrite Hc.
Qed.

(** C8. The submission view renders the reports that the controller
    selects among the ACTIVE reports of the submission; [all_reports] is
    empty when the requester is not a contest admin, so a report that is
    not ACTIVE reaches [all_reports] for contest admins only. *)
Theorem submission_view_reports (contest_id submission_id : string)
    (request : Request) (w : World) (c : Contest) (submission : Submission) :
  contest request = Some c →
  cond_and (contest_exists site) (can_enter_contest site) (db w) request
    = true →
  get_submission_or_404 site (db w) request contest_id submission_id
    = Ok submission →
  let ctl := controller site c in
  let queryset :=
    List.filter (λ r, (report_submission_id r =? sub_id submission)%Z)
                (submission_reports (db w)) in
  let active :=
    List.filter (λ r, String.eqb (report_status r) "ACTIVE") queryset in
  let all_reports :=
    if is_contest_admin site (db w) request
    then filter_visible_reports ctl (db w) request submission queryset
    else [] in
  submission_view site contest_id submission_id request w
  = (Ok (TemplateResponse "contests/submission.html"
           [("submission", VSubmission submission);
            ("header",
             VStr (render_submission ctl (db w) request submission));
            ("footer",
             VStr (render_submission_footer ctl (db w) request submission));
            ("reports",
             VStrs (map (render_report ctl (db w) request)
                      (filter_visible_reports ctl (db w) request
                         submission active)));
            ("all_reports", VReports all_reports)]), w)
  ∧ (∀ r, r ∈ active → report_status r = "ACTIVE")
  ∧ ((∀ l r, r ∈ filter_visible_reports ctl (db w) request submission l →
             r ∈ l) →
     ∀ r, r ∈ filter_visible_reports ctl (db w) request submission active →
          report_status r = "ACTIVE")
  ∧ (is_contest_admin site (db w) request = false → all_reports = [])
  ∧ (∀ r, r ∈ all_reports → report_status r ≠ "ACTIVE" →
          is_contest_admin site (db w) request = true).
Proof.
  intros Hc Hcond Hsub ctl queryset active all_reports.
  assert (∀ r, r ∈ active → report_status r = "ACTIVE") as Hactive.
  { intros r Hr%list_elem_of_In. apply filter_In in Hr as [_ Hr].
    by apply String.eqb_eq. }
  split; [|split; [exact Hactive|split; [|split]]].
  - unfold submission_view, submission_view_func. run.
    unfold cond_and in Hcond. rewrite Hcond, Hsub. cbn beta iota.
    rewrite Hc. cbn beta iota. fold ctl queryset active.
    replace (if is_contest_admin site (db w) request
             then match filter_visible_reports ctl (db w) request submission
                          queryset with
                  | [] => []
                  | visible => visible
                  end
             else []) with all_reports; [done|].
    unfold all_reports. destruct (is_contest_admin site (db w) request);
      [|done].
    by destruct (filter_visible_reports ctl (db w) request submission queryset).
  - intros Hsel r Hr. apply Hactive. by apply Hsel.
  - unfold all_reports. by intros ->.
  - unfold all_reports. intros r Hr _.
    destruct (is_contest_admin site (db w) request); [done|].
    by apply elem_of_nil in Hr.
Qed.

(** C9. A POST of a contest admin to the change-kind view of an existing
    submission calls the controller's [change_submission_kind] (once, and
    records a success message) exactly when the kind is among the
    controller's valid kinds for the submission; otherwise it records an
    error message and leaves the database as it was; both ways the
    response redirects to the submission's page. *)
Theorem change_submission_kind_view_valid_kinds
    (contest_id submission_id kind : string) (request : Request)
    (w : World) (c : Contest) (submission : Submission) :
  method request = "POST" →
  contest request = Some c →
  cond_and (contest_exists site) (is_contest_admin site) (db w) request
    = true →
  get_submission_or_404 site (db w) request contest_id submission_id
    = Ok submission →
  let ctl := controller site c in
  change_submission_kind_view site contest_id submission_id kind request w
  = (Ok (redirect "submission" [("contest_id", AStr contest_id);
                                ("submission_id", AStr submission_id)]),
     if bool_decide (kind ∈ valid_kinds_for_submission ctl (db w) submission)
     then {| db := change_submission_kind ctl submission kind (db w);
             messages :=
               messages w
               ++ [{| level := SUCCESS;
                      message :=
                        Translated "Submission kind has been changed." |}];
             outbox := outbox w;
             calls := calls w ++ [CallChangeSubmissionKind submission kind] |}
     else {| db := db w;
             messages :=
               messages w
               ++ [{| level := ERROR;
                      message :=
                        Formatted
                          (Translated
                             "%(kind)s is not valid kind for submission %(submission_id)d.")
                          [("kind", AStr kind);
                           ("submission_id", AInt (sub_id submission))] |}];
             outbox := outbox w;
             calls := calls w |}).
Proof.
  intros Hpost Hc Hcond Hsub ctl.
  unfold change_submission_kind_view, change_submission_kind_view_func. run.
  unfold cond_and in Hcond. rewrite Hcond, Hpost. cbn beta iota.
  change (("POST" =? "POST")%string) with true. cbn beta iota.
  rewrite Hsub. cbn beta iota. rewrite Hc. cbn beta iota. fold ctl.
  by destruct (bool_decide
                 (kind ∈ valid_kinds_for_submission ctl (db w) submission)).
Qed.

End submission_views.

Section submission_views_examples.
Import contests_views Sample.

Lemma submit_view_POST_witness :
  submit_view the_site "c1" post_of_pupil the_world
  = (Ok (redirect "my_submissions" [("contest_id", AStr "c1")]),
     {| db := the_db; messages := []; outbox := [];
        calls := [CallCreateSubmission post_of_pupil a_problem_instance
                    {| cd_problem_instance := a_problem_instance;
                       cd_fields := ∅ |}] |})
  ∧ submit_view the_site "c1" (request_by pupil_user "POST" ∅) the_world
    = (Ok (TemplateResponse "contests/submit.html"
             [("form",
               VForm {| form_request := request_by pupil_user "POST" ∅;
                        form_data := Some (∅, ∅) |})]),
       the_world).
Proof.
  split.
  - exact (submit_view_POST the_site "c1" post_of_pupil the_world
             the_contest eq_refl eq_refl eq_refl eq_refl).
  - exact (submit_view_POST the_site "c1" (request_by pupil_user "POST" ∅)
             the_world the_contest eq_refl eq_refl eq_refl eq_refl).
Defined.

Lemma rejudge_submission_view_judges_once_witness :
  rejudge_submission_view the_site "c1" "31" post_of_root the_world
  = (Ok (redirect "submission" [("contest_id", AStr "c1");
                                ("submission_id", AStr "31")]),
     {| db := the_db;
        messages := [{| level := INFO;
                        message := Translated "Rejudge request received." |}];
        outbox := [];
        calls := [CallJudge submission_a ∅] |})
  ∧ rejudge_submission_view the_site "c1" "31" post_of_pupil the_world
    = (Raise PermissionDenied, the_world)
  ∧ rejudge_submission_view the_site "c1" "31" (request_by root "GET" ∅)
      the_world
    = (Ok (HttpResponseNotAllowed ["POST"]), the_world).
Proof.
  split; [|split].
  - exact (rejudge_submission_view_judges_once the_site "c1" "31"
             post_of_root the_world the_contest submission_a
             eq_refl eq_refl).
  - exact (rejudge_submission_view_judges_once the_site "c1" "31"
             post_of_pupil the_world the_contest submission_a
             eq_refl eq_refl).
  - exact (rejudge_submission_view_judges_once the_site "c1" "31"
             (request_by root "GET" ∅) the_world the_contest submission_a
             eq_refl eq_refl).
Defined.

Lemma submission_view_reports_witness :
  submission_view the_site "c1" "31" (request_by pupil_user "GET" ∅)
    the_world
  = (Ok (TemplateResponse "contests/submission.html"
           [("submission", VSubmission submission_a);
            ("header", VStr "header"); ("footer", VStr "footer");
            ("reports", VStrs ["ACTIVE"]);
            ("all_reports", VReports [])]), the_world).
Proof.
  exact (proj1 (submission_view_reports the_site "c1" "31"
                  (request_by pupil_user "GET" ∅) the_world the_contest
                  submission_a eq_refl eq_refl eq_refl)).
Defined.

Lemma change_submission_kind_view_valid_kinds_witness :
  change_submission_kind_view the_site "c1" "31" "IGNORED" post_of_root
    the_world
  = (Ok (redirect "submission" [("contest_id", AStr "c1");
                                ("submission_id", AStr "31")]),
     {| db := the_db;
        messages :=
          [{| level := SUCCESS;
              message := Translated "Submission kind has been changed." |}];
        outbox := [];
        calls := [CallChangeSubmissionKind submission_a "IGNORED"] |})
  ∧ change_submission_kind_view the_site "c1" "31" "BEST" post_of_root
      the_world
    = (Ok (redirect "submission" [("contest_id", AStr "c1");
                                  ("submission_id", AStr "31")]),
       {| db := the_db;
          messages :=
            [{| level := ERROR;
                message :=
                  Formatted
                    (Translated
                       "%(kind)s is not valid kind for submission %(submission_id)d.")
                    [("kind", AStr "BEST"); ("submission_id", AInt 31)] |}];
          outbox := [];
          calls := [] |}).
Proof.
  split.
  - exact (change_submission_kind_view_valid_kinds the_site "c1" "31"
             "IGNORED" post_of_root the_world the_contest submission_a
             eq_refl eq_refl eq_refl eq_refl).
  - exact (change_submission_kind_view_valid_kinds the_site "c1" "31"
             "BEST" post_of_root the_world the_contest submission_a
             eq_refl eq_refl eq_refl eq_refl).
Defined.

End submission_views_examples.

(** ** The ORM operations *)

Section orm_facts.
Context {A : Type}.
Implicit Types (lookup : A → bool) (pk : A → Z) (rows : list A).

Lemma get_object_or_404_Ok lookup rows x :
  get_object_or_404 lookup rows = Ok x ↔ List.filter lookup rows = [x].
Proof.
  unfold get_object_or_404, objects_get.
  destruct (List.filter lookup rows) as [|a [|b l]]; split;
    intros H; try done; by simplify_eq.
Qed.

Lemma objects_get_Got lookup rows x :
  objects_get lookup rows = Got x ↔ List.filter lookup rows = [x].
Proof.
  unfold objects_get.
  destruct (List.filter lookup rows) as [|a [|b l]]; split;
    intros H; try done; by simplify_eq.
Qed.

Lemma objects_get_DoesNotExist lookup rows :
  objects_get lookup rows = DoesNotExist ↔ List.filter lookup rows = [].
Proof.
  unfold objects_get.
  by destruct (List.filter lookup rows) as [|a [|b l]].
Qed.

Lemma filter_singleton_In lookup rows x :
  List.filter lookup rows = [x] → In x rows ∧ lookup x = true.
Proof.
  intros H. apply filter_In. rewrite H. by left.
Qed.

Lemma filter_singleton_find lookup rows x :
  List.filter lookup rows = [x] → List.find lookup rows = Some x.
Proof.
  induction rows as [|a rows IH]; simpl; [done|].
  destruct (lookup a); [by intros [= -> _]|done].
Qed.

Lemma pk_unique pk rows x y :
  NoDup (map pk rows) → In x rows → In y rows → pk x = pk y → x = y.
Proof.
  induction rows as [|a rows IH]; simpl; [done|].
  intros [Hnotin Hnodup]%NoDup_cons [->|Hx] [->|Hy] Heq; auto.
  - destruct Hnotin. rewrite Heq. apply list_elem_of_In, in_map, Hy.
  - destruct Hnotin. rewrite <- Heq. apply list_elem_of_In, in_map, Hx.
Qed.

Lemma next_pk_fresh pk rows x : In x rows → (pk x < next_pk pk rows)%Z.
Proof.
  unfold next_pk. induction rows as [|a rows IH]; simpl; [done|].
  intros [->|Hx]; [lia|]. specialize (IH Hx). lia.
Qed.

(** Saving a row whose key is in the table replaces that row only. *)
Lemma save_existing pk rows x x' :
  NoDup (map pk rows) → In x rows → pk x' = pk x →
  save pk x' rows = map (λ r, if (pk r =? pk x)%Z then x' else r) rows
  ∧ ∀ r, In r rows → r ≠ x → In r (save pk x' rows).
Proof.
  intros Hnodup Hx Hpk. unfold save.
  assert (existsb (λ r, (pk r =? pk x')%Z) rows = true) as ->.
  { apply existsb_exists. exists x. split; [done|]. rewrite Hpk.
    apply Z.eqb_refl. }
  rewrite Hpk. split; [done|].
  intros r Hr Hne. apply in_map_iff. exists r. split; [|done].
  destruct (Z.eqb_spec (pk r) (pk x)) as [Heq|]; [|done].
  destruct Hne. eauto using pk_unique.
Qed.

Lemma filter_save_existing lookup pk rows x x' :
  NoDup (map pk rows) → List.filter lookup rows = [x] → pk x' = pk x →
  lookup x' = true →
  List.filter lookup (save pk x' rows) = [x'].
Proof.
  intros Hnodup Hfilter Hpk Hlookup.
  destruct (filter_singleton_In _ _ _ Hfilter) as [Hx _].
  destruct (save_existing pk rows x x' Hnodup Hx Hpk) as [-> _].
  assert (∀ l, (∀ r, In r l → In r rows) →
    List.filter lookup (map (λ r, if (pk r =? pk x)%Z then x' else r) l)
    = map (λ r, if (pk r =? pk x)%Z then x' else r) (List.filter lookup l))
    as Hcomm.
  { induction l as [|a l IH]; intros Hsub; simpl; [done|].
    rewrite IH by (intros r Hr; apply Hsub; by right).
    destruct (Z.eqb_spec (pk a) (pk x)) as [Heq|Hne].
    - assert (a = x) as -> by (apply (pk_unique pk rows); auto;
                               apply Hsub; by left).
      destruct (filter_singleton_In _ _ _ Hfilter) as [_ ->].
      rewrite Hlookup. simpl. by rewrite Z.eqb_refl.
    - destruct (lookup a); simpl; [|done].
      by destruct (Z.eqb_spec (pk a) (pk x)). }
  rewrite Hcomm by auto. rewrite Hfilter. simpl. by rewrite Z.eqb_refl.
Qed.

End orm_facts.

(** ** The registration views of the teachers application *)

Section registration.
Context (site : Site).

Import teachers_views.

(** C7. For a contest admin and a contest that has its registration
    config, the set-registration view stores the config with [is_active]
    set to the given value and its other fields (the key among them) as
    they were, changes no other row and nothing else of the world, and
    redirects to the pupils page. *)
Theorem set_registration_view_sets_is_active (contest_id : string)
    (value : bool) (request : Request) (w : World) (c : Contest)
    (cfg : RegistrationConfig) :
  contest request = Some c →
  is_contest_admin site (db w) request = true →
  NoDup (map rc_pk (registration_configs (db w))) →
  get_object_or_404 (λ rc, of_request_contest request (rc_contest_id rc))
    (registration_configs (db w)) = Ok cfg →
  let cfg' := {| rc_pk := rc_pk cfg; rc_contest_id := rc_contest_id cfg;
                 rc_is_active := value; rc_key := rc_key cfg |} in
  let rows' := map (λ r, if (rc_pk r =? rc_pk cfg)%Z then cfg' else r)
                   (registration_configs (db w)) in
  set_registration_view site contest_id value request w
  = (Ok (HttpResponseRedirect
           (reverse "oioioi.teachers.views.pupils_view"
              [("contest_id", AStr (cid c))])),
     {| db := set_registration_configs rows' (db w);
        messages := messages w; outbox := outbox w; calls := calls w |})
  ∧ get_object_or_404 (λ rc, of_request_contest request (rc_contest_id rc))
      rows' = Ok cfg'
  ∧ (∀ r, In r (registration_configs (db w)) → r ≠ cfg → In r rows').
Proof.
  intros Hc Hadmin Hnodup Hget cfg' rows'.
  pose proof Hget as Hfilter. apply get_object_or_404_Ok in Hfilter.
  destruct (filter_singleton_In _ _ _ Hfilter) as [Hin Hlookup].
  destruct (save_existing rc_pk _ cfg cfg' Hnodup Hin eq_refl)
    as [Hsave Hothers].
  split; [|split].
  - unfold set_registration_view, set_registration_view_func,
      redirect_to_pupils. run.
    rewrite Hadmin, Hget. cbn beta iota. rewrite Hc. cbn beta iota.
    unfold set_rc_is_active. fold cfg'. cbn [db]. by rewrite Hsave.
  - apply get_object_or_404_Ok. unfold rows'. rewrite <- Hsave.
    by apply (filter_save_existing _ rc_pk _ cfg).
  - intros r Hr Hne. unfold rows'. rewrite <- Hsave. by apply Hothers.
Qed.

End registration.

Section acceptance_view.
Context (site : Site).

Import teachers_views acceptance.

Lemma set_teachers_id d : set_teachers (teachers d) d = d.
Proof. by destruct d. Qed.

Lemma set_pupils_id d : set_pupils (pupils d) d = d.
Proof. by destruct d. Qed.

(** C4. For a superuser and an existing user, the accept view takes the
    user's teacher record (creating it with the model's defaults when
    there is none); when the record is active it records an informational
    message, sends nothing and leaves an existing record as it was;
    otherwise it saves the record as active, sends the acceptance mail to
    the user and records a success message; both ways it redirects to the
    teacher changelist. *)
Theorem accept_teacher_view_emails_unless_active (uid : Z)
    (request : Request) (w : World) (u : User) :
  is_superuser (user request) = true →
  get_object_or_404 (λ u, (user_id u =? uid)%Z) (users (db w)) = Ok u →
  let response := redirect "oioioiadmin:teachers_teacher_changelist" [] in
  match objects_get (λ t, (teacher_user_id t =? user_id u)%Z)
          (teachers (db w)) with
  | Got t =>
      accept_teacher_view site uid request w
      = (Ok response, after_accept w u (teachers (db w)) t)
      ∧ (teacher_is_active t = true →
         db (after_accept w u (teachers (db w)) t) = db w
         ∧ outbox (after_accept w u (teachers (db w)) t) = outbox w)
  | DoesNotExist =>
      let t := {| teacher_pk := next_pk teacher_pk (teachers (db w));
                  teacher_user_id := user_id u;
                  teacher_is_active := Teacher_is_active_default site |} in
      accept_teacher_view site uid request w
      = (Ok response, after_accept w u (teachers (db w) ++ [t]) t)
  | Multiple =>
      accept_teacher_view site uid request w
      = (Raise MultipleObjectsReturned, w)
  end.
Proof.
  intros Hsuper Hget response.
  pose proof Hget as Hfilter. apply get_object_or_404_Ok in Hfilter.
  destruct (filter_singleton_In _ _ _ Hfilter) as [_ Huid%Z.eqb_eq].
  apply filter_singleton_find in Hfilter.
  unfold accept_teacher_view, accept_teacher_view_func,
    Teacher_get_or_create, get_or_create, send_acceptance_email,
    teacher_user. run.
  rewrite Hsuper, Hget. cbn beta iota.
  destruct (objects_get _ (teachers (db w))) as [|t|] eqn:Hfound.
  - cbn. unfold after_accept.
    destruct (Teacher_is_active_default site) eqn:Hdefault; cbn.
    + reflexivity.
    + rewrite Huid, Hfilter. reflexivity.
  - apply objects_get_Got, filter_singleton_In in Hfound
      as [_ Hmatch%Z.eqb_eq].
    rewrite set_teachers_id. cbn. unfold after_accept. split.
    + destruct (teacher_is_active t) eqn:Hactive; cbn.
      * by rewrite set_teachers_id.
      * rewrite Hmatch, Huid, Hfilter. reflexivity.
    + intros ->. cbn. by rewrite set_teachers_id.
  - rewrite set_teachers_id. by destruct w.
Qed.

End acceptance_view.

Section activation_view.
Context (site : Site).

Import teachers_views activation.

Lemma REQUEST_contains_getitem request k v :
  REQUEST_getitem request k = Some v → REQUEST_contains request k = true.
Proof.
  unfold REQUEST_getitem, REQUEST_contains, QueryDict_getitem.
  destruct (POST request !! k) as [l|]; cbn [fmap option_fmap option_map].
  - intros _. rewrite bool_decide_eq_true_2; [done|by eexists].
  - destruct (GET request !! k) as [l|]; cbn [fmap option_fmap option_map];
      [|done].
    intros _. rewrite (bool_decide_eq_true_2 (is_Some (Some l)));
      [apply orb_true_r|by eexists].
Qed.

(** The view on a request that registers a pupil: the user has no teacher
    permission, or asks to be registered as a pupil. *)
Lemma activate_pupil_view_as_pupil contest_id key request w c cfg :
  is_authenticated (user request) = true →
  contest request = Some c →
  get_object_or_404 (λ rc, of_request_contest request (rc_contest_id rc))
    (registration_configs (db w)) = Ok cfg →
  String.eqb (rc_key cfg) key && rc_is_active cfg = true →
  has_perm (user request) "teachers.teacher" = false
  ∨ REQUEST_getitem request "register_as" = Some (QStr "pupil") →
  activate_pupil_view site contest_id key request w
  = match objects_get
            (λ p, of_request_contest request (pupil_contest_id p)
                  && (pupil_user_id p =? user_id (user request))%Z)
            (pupils (db w)) with
    | Got _ =>
        (Ok (redirect "default_contest_view"
               [("contest_id", AStr contest_id)]),
         {| db := db w;
            messages := messages w
                        ++ [{| level := INFO;
                               message := Translated "Activation successful." |}];
            outbox := outbox w; calls := calls w |})
    | DoesNotExist =>
        (Ok (redirect "default_contest_view"
               [("contest_id", AStr contest_id)]),
         {| db := set_pupils
                    (pupils (db w)
                     ++ [{| pupil_pk := next_pk pupil_pk (pupils (db w));
                            pupil_contest_id := cid c;
                            pupil_user_id := user_id (user request) |}])
                    (db w);
            messages := messages w
                        ++ [{| level := INFO;
                               message := Translated "Activation successful." |}];
            outbox := outbox w; calls := calls w |})
    | Multiple => (Raise MultipleObjectsReturned, w)
    end.
Proof.
  intros Hauth Hc Hget Hkey Hpupil.
  assert (activate_pupil_view site contest_id key request w
          = activate_register site contest_id request (QStr "pupil") w) as ->.
  { unfold activate_pupil_view, activate_pupil_view_func. run.
    rewrite Hauth, Hget. cbn beta iota. rewrite Hkey.
    destruct (has_perm (user request) "teachers.teacher") eqn:Hperm;
      [|reflexivity].
    destruct Hpupil as [|Hitem]; [done|]. cbn [negb].
    by rewrite (REQUEST_contains_getitem _ _ _ Hitem), Hitem. }
  unfold activate_register, Pupil_get_or_create, get_or_create.
  change (qvalue_eq_str (QStr "pupil") "pupil") with true. cbn iota.
  rewrite Hc. run.
  destruct (objects_get _ (pupils (db w))) as [|p|]; cbn.
  - reflexivity.
  - by rewrite set_pupils_id.
  - rewrite set_pupils_id. by destruct w.
Qed.

(** C3 (amended). For a logged-in user and a contest that has its
    registration config: when the key differs from the stored one or
    registration is inactive, the activation-error page is returned and
    nothing is written. When the key is the stored one and registration is
    active, a user without the teacher permission, or one who asks to be
    registered as a pupil, gets the success message and the redirect, and
    afterwards has exactly one Pupil record of the contest: a new one when
    there was none, the old one otherwise; activating again succeeds and
    writes nothing. A teacher who has not chosen how to register gets the
    activation-type page and nothing is created; a choice other than pupil
    or teacher raises [SuspiciousOperation]. *)
Theorem activate_pupil_view_registers (contest_id key : string)
    (request : Request) (w : World) (c : Contest) (cfg : RegistrationConfig) :
  is_authenticated (user request) = true →
  contest request = Some c →
  get_object_or_404 (λ rc, of_request_contest request (rc_contest_id rc))
    (registration_configs (db w)) = Ok cfg →
  let key_ok := String.eqb (rc_key cfg) key in
  let is_teacher := has_perm (user request) "teachers.teacher" in
  let lookup := λ p, of_request_contest request (pupil_contest_id p)
                     && (pupil_user_id p =? user_id (user request))%Z in
  let activated :=
    Ok (redirect "default_contest_view" [("contest_id", AStr contest_id)]) in
  (key_ok && rc_is_active cfg = false →
   activate_pupil_view site contest_id key request w
   = (Ok (TemplateResponse "teachers/activation_error.html"
            [("key_ok", VBool key_ok);
             ("registration_active", VBool (rc_is_active cfg))]), w))
  ∧ (key_ok && rc_is_active cfg = true →
     is_teacher = false
     ∨ REQUEST_getitem request "register_as" = Some (QStr "pupil") →
     objects_get lookup (pupils (db w)) ≠ Multiple →
     ∃ w' w'' p,
       activate_pupil_view site contest_id key request w = (activated, w')
       ∧ List.filter lookup (pupils (db w')) = [p]
       ∧ pupil_contest_id p = cid c
       ∧ pupil_user_id p = user_id (user request)
       ∧ (objects_get lookup (pupils (db w)) = DoesNotExist →
          pupils (db w') = pupils (db w) ++ [p])
       ∧ (objects_get lookup (pupils (db w)) = Got p → db w' = db w)
       ∧ db w' = set_pupils (pupils (db w')) (db w)
       ∧ messages w'
         = messages w
           ++ [{| level := INFO;
                  message := Translated "Activation successful." |}]
       ∧ activate_pupil_view site contest_id key request w' = (activated, w'')
       ∧ db w'' = db w')
  ∧ (key_ok && rc_is_active cfg = true →
     is_teacher = true →
     REQUEST_contains request "register_as" = false →
     activate_pupil_view site contest_id key request w
     = (Ok (TemplateResponse "teachers/activation_type.html"
              [("key", VStr key)]), w))
  ∧ (key_ok && rc_is_active cfg = true →
     is_teacher = true →
     ∀ register_as,
       REQUEST_getitem request "register_as" = Some register_as →
       qvalue_eq_str register_as "pupil" = false →
       qvalue_eq_str register_as "teacher" = false →
       activate_pupil_view site contest_id key request w
       = (Raise SuspiciousOperation, w)).
Proof.
  intros Hauth Hc Hget key_ok is_teacher lookup activated.
  assert (∀ p, lookup p = true →
               pupil_contest_id p = cid c
               ∧ pupil_user_id p = user_id (user request)) as Hlookup.
  { intros p [Hcontest Huser%Z.eqb_eq]%andb_true_iff. split; [|done].
    unfold of_request_contest in Hcontest. rewrite Hc in Hcontest.
    apply bool_decide_eq_true_1 in Hcontest. by simplify_eq/=. }
  split; [|split; [|split]].
  - intros Hkey. unfold activate_pupil_view, activate_pupil_view_func. run.
    rewrite Hauth, Hget. cbn beta iota. fold key_ok. by rewrite Hkey.
  - intros Hkey Hpupil Hmulti.
    pose proof (activate_pupil_view_as_pupil contest_id key request w c cfg
                  Hauth Hc Hget Hkey Hpupil) as Hrun.
    fold lookup in Hrun.
    destruct (objects_get lookup (pupils (db w))) as [|q|] eqn:Hfound;
      [| |done].
    + set (p := {| pupil_pk := next_pk pupil_pk (pupils (db w));
                   pupil_contest_id := cid c;
                   pupil_user_id := user_id (user request) |}) in *.
      assert (lookup p = true) as Hp.
      { unfold lookup, of_request_contest. rewrite Hc. cbn.
        rewrite bool_decide_eq_true_2 by done. apply Z.eqb_refl. }
      apply objects_get_DoesNotExist in Hfound.
      assert (List.filter lookup (pupils (db w) ++ [p]) = [p]) as Hfilter.
      { rewrite List.filter_app, Hfound. cbn. by rewrite Hp. }
      match type of Hrun with _ = (_, ?w1) => set (w' := w1) in * end.
      pose proof (activate_pupil_view_as_pupil contest_id key request w' c cfg
                    Hauth Hc Hget Hkey Hpupil) as Hagain.
      fold lookup in Hagain. cbn [db pupils set_pupils w'] in Hagain.
      pose proof (proj2 (objects_get_Got _ _ _) Hfilter) as Hgot.
      rewrite Hgot in Hagain.
      match type of Hagain with _ = (_, ?w2) => exists w', w2, p end.
      repeat split; try done.
    + pose proof (proj1 (objects_get_Got _ _ _) Hfound) as Hfilter.
      destruct (filter_singleton_In _ _ _ Hfilter) as [_ Hq].
      destruct (Hlookup q Hq) as [Hqc Hqu].
      match type of Hrun with _ = (_, ?w1) => set (w' := w1) in * end.
      pose proof (activate_pupil_view_as_pupil contest_id key request w' c cfg
                    Hauth Hc Hget Hkey Hpupil) as Hagain.
      fold lookup in Hagain. cbn [db w'] in Hagain. rewrite Hfound in Hagain.
      match type of Hagain with _ = (_, ?w2) => exists w', w2, q end.
      repeat split; try done. cbn. by rewrite set_pupils_id.
  - intros Hkey Hteacher Hnone.
    unfold activate_pupil_view, activate_pupil_view_func. run.
    rewrite Hauth, Hget. cbn beta iota. fold key_ok. rewrite Hkey.
    fold is_teacher. by rewrite Hteacher, Hnone.
  - intros Hkey Hteacher register_as Hitem Hpupil Hnot_teacher.
    unfold activate_pupil_view, activate_pupil_view_func. run.
    rewrite Hauth, Hget. cbn beta iota. fold key_ok. rewrite Hkey.
    fold is_teacher. rewrite Hteacher. cbn [negb].
    rewrite (REQUEST_contains_getitem _ _ _ Hitem), Hitem.
    unfold activate_register. by rewrite Hpupil, Hnot_teacher.
Qed.

End activation_view.

(** ** The diff action of the submission admin *)

Section diff_action.
Context (site : Site).

Import programs_admin.

(** C10. When the selection does not hold exactly two submissions the
    action records an error message and returns [None]; when it holds two,
    the action redirects to the source-diff page of the two, the one the
    database orders first by date as [submission1_id] and the other as
    [submission2_id]. *)
Theorem submission_diff_action_orders_by_date (request : Request)
    (queryset : list Submission) (w : World) (c : Contest) :
  contest request = Some c →
  Permutation (order_by_date site queryset) queryset →
  Sorted (λ a b, (sub_date a ≤ sub_date b)%Z) (order_by_date site queryset) →
  if (length queryset =? 2)%nat then
    ∃ older newer,
      Permutation [older; newer] queryset
      ∧ (sub_date older ≤ sub_date newer)%Z
      ∧ submission_diff_action site request queryset w
        = (Ok (redirect "source_diff"
                 [("contest_id", AStr (cid c));
                  ("submission1_id", AInt (sub_id older));
                  ("submission2_id", AInt (sub_id newer))]), w)
  else
    submission_diff_action site request queryset w
    = (Ok NoResponse,
       {| db := db w;
          messages :=
            messages w
            ++ [{| level := ERROR;
                   message :=
                     Translated
                       "You shall select exactly two submissions to diff" |}];
          outbox := outbox w; calls := calls w |}).
Proof.
  intros Hc Hperm Hsorted. unfold submission_diff_action.
  destruct (length queryset =? 2)%nat eqn:Hlen; cbn [negb]; [|by run].
  apply Nat.eqb_eq in Hlen.
  pose proof (Permutation_length Hperm) as Hlen'. rewrite Hlen in Hlen'.
  destruct (order_by_date site queryset) as [|older [|newer [|? ?]]];
    try done.
  exists older, newer. split; [done|]. split.
  - apply Sorted_inv in Hsorted as [_ Hhd]. by apply HdRel_inv in Hhd.
  - run. by rewrite Hc.
Qed.

End diff_action.

(** ** The views at work *)

Section teachers_examples.
Import teachers_views activation acceptance programs_admin Sample.

Lemma set_registration_view_sets_is_active_witness :
  set_registration_view the_site "c1" false post_of_root the_world
  = (Ok (HttpResponseRedirect
           (reverse "oioioi.teachers.views.pupils_view"
              [("contest_id", AStr "c1")])),
     {| db := set_registration_configs
                [{| rc_pk := 1; rc_contest_id := "c1"; rc_is_active := false;
                    rc_key := "sesame" |}] the_db;
        messages := []; outbox := []; calls := [] |}).
Proof.
  refine (proj1 (set_registration_view_sets_is_active the_site "c1" false
                   post_of_root the_world the_contest
                   {| rc_pk := 1; rc_contest_id := "c1"; rc_is_active := true;
                      rc_key := "sesame" |} eq_refl eq_refl _ eq_refl)).
  apply NoDup_singleton.
Defined.

Lemma accept_teacher_view_emails_unless_active_witness :
  accept_teacher_view the_site 8 post_of_root the_world
  = (Ok (redirect "oioioiadmin:teachers_teacher_changelist" []),
     {| db := set_teachers
                [{| teacher_pk := 1; teacher_user_id := 8;
                    teacher_is_active := true |}] the_db;
        messages :=
          [{| level := SUCCESS;
              message :=
                Translated
                  "Successfully accepted and emailed the new teacher." |}];
        outbox :=
          [acceptance_email teacher_account
             {| teacher_pk := 1; teacher_user_id := 8;
                teacher_is_active := false |}];
        calls := [] |}).
Proof.
  exact (proj1 (accept_teacher_view_emails_unless_active the_site 8
                  post_of_root the_world teacher_account eq_refl eq_refl)).
Defined.

Lemma activate_pupil_view_registers_witness :
  ∃ w' w'' p,
    activate_pupil_view the_site "c1" "sesame"
      (request_by pupil_user "GET" ∅) the_world
    = (Ok (redirect "default_contest_view" [("contest_id", AStr "c1")]), w')
    ∧ pupils (db w') = [p]
    ∧ pupil_user_id p = 7
    ∧ activate_pupil_view the_site "c1" "sesame"
        (request_by pupil_user "GET" ∅) w'
      = (Ok (redirect "default_contest_view" [("contest_id", AStr "c1")]), w'')
    ∧ db w'' = db w'.
Proof.
  destruct (activate_pupil_view_registers the_site "c1" "sesame"
              (request_by pupil_user "GET" ∅) the_world the_contest
              {| rc_pk := 1; rc_contest_id := "c1"; rc_is_active := true;
                 rc_key := "sesame" |} eq_refl eq_refl eq_refl)
    as (_ & Hpupil & _ & _).
  destruct (Hpupil eq_refl (or_introl eq_refl))
    as (w' & w'' & p & Hrun & _ & _ & Huser & Hnew & _ & _ & _ & Hagain & Hdb).
  { discriminate. }
  exists w', w'', p. repeat split; try done. by apply Hnew.
Defined.

(** A teacher who has not chosen how to register has the right key while
    registration is active, and no record is created. *)
Lemma activate_pupil_view_iff_counterexample :
  ¬ created_iff_key_ok_and_active the_site "c1" "sesame"
      (request_by teacher_account "GET" ∅) the_world.
Proof.
  intros Hiff.
  destruct (Hiff {| rc_pk := 1; rc_contest_id := "c1"; rc_is_active := true;
                    rc_key := "sesame" |} eq_refl) as [_ Hcreated].
  destruct (Hcreated (conj eq_refl eq_refl)) as [Hpupils|Hteachers].
  - by apply Hpupils.
  - by apply Hteachers.
Qed.

Lemma submission_diff_action_orders_by_date_witness :
  ∃ older newer,
    Permutation [older; newer] [submission_a; submission_b]
    ∧ (sub_date older ≤ sub_date newer)%Z
    ∧ submission_diff_action the_site post_of_root
        [submission_a; submission_b] the_world
      = (Ok (redirect "source_diff"
               [("contest_id", AStr "c1");
                ("submission1_id", AInt (sub_id older));
                ("submission2_id", AInt (sub_id newer))]), the_world).
Proof.
  refine (submission_diff_action_orders_by_date the_site post_of_root
            [submission_a; submission_b] the_world the_contest eq_refl _ _).
  - apply perm_swap.
  - repeat constructor. vm_compute. discriminate.
Defined.

End teachers_examples.

(** * Further properties of the views *)

(** ** What the statement and attachment views stream *)

Section streaming.
Context (site : Site).

Import contests_views.

Lemma insort_In {A} (f : A → key) (x y : A) l :
  In y (insort f x l) ↔ y = x ∨ In y l.
Proof.
  induction l as [|a l IH]; simpl; [intuition congruence|].
  destruct (key_le (f x) (f a)); simpl; [intuition congruence|].
  rewrite IH. intuition congruence.
Qed.

Lemma sorted_In {A} (f : A → key) (y : A) l : In y (sorted f l) ↔ In y l.
Proof.
  induction l as [|a l IH]; simpl; [done|].
  change (In y (insort f a (sorted f l)) ↔ a = y ∨ In y l).
  rewrite insort_In, IH. intuition congruence.
Qed.

(** X1. The statement view streams nothing but the content of a statement of
    the problem of the instance named in the request, and only for a
    requester who may enter the contest and see the problem. *)
Theorem problem_statement_view_streams_only_visible
    (contest_id problem_instance : string) (request : Request) (w w' : World)
    (content : string) :
  problem_statement_view site contest_id problem_instance request w
  = (Ok (StreamFile content), w') →
  cond_and (contest_exists site) (can_enter_contest site) (db w) request
  = true
  ∧ ∃ c pi s,
      contest request = Some c
      ∧ get_object_or_404
          (in_contest_with_name (db w) (contest request) problem_instance)
          (problem_instances (db w)) = Ok pi
      ∧ can_see_problem (controller site c) (db w) request pi = true
      ∧ In s (problem_statements (db w))
      ∧ ps_problem_id s = pi_problem_id pi
      ∧ ps_content s = content.
Proof.
  unfold problem_statement_view, problem_statement_view_func. run.
  unfold cond_and.
  destruct (contest_exists site (db w) request
            && can_enter_contest site (db w) request); [|done].
  destruct (contest request) as [c|] eqn:Hc; [|done]. cbn beta iota.
  destruct (get_object_or_404 _ _) as [pi|] eqn:Hpi; [|done]. cbn beta iota.
  destruct (can_see_problem _ _ _ _) eqn:Hsee; [|done]. cbn [negb].
  destruct (List.filter _ (problem_statements (db w))) as [|s0 l] eqn:Hst;
    [done|].
  destruct (sorted (sort_key site request) (s0 :: l)) as [|s rest] eqn:Hsorted;
    [done|].
  cbn. intros [= <- <-]. split; [done|]. exists c, pi, s.
  assert (In s (s0 :: l)) as Hin.
  { apply (sorted_In (sort_key site request)). rewrite Hsorted. by left. }
  rewrite <- Hst in Hin. apply filter_In in Hin as [Hin Hproblem%Z.eqb_eq].
  done.
Qed.

(** X2. Under the contest-entry condition, the attachment view streams a
    content exactly when the attachment of that id exists and its problem is
    the problem of a visible problem instance; the content is the
    attachment's. *)
Theorem problem_attachment_view_streams_iff_visible (contest_id : string)
    (attachment_id : Z) (request : Request) (w w' : World) (content : string) :
  problem_attachment_view site contest_id attachment_id request w
  = (Ok (StreamFile content), w')
  ↔ cond_and (contest_exists site) (can_enter_contest site) (db w) request
    = true
    ∧ w' = w
    ∧ ∃ attachment,
        get_object_or_404 (λ a, (pa_id a =? attachment_id)%Z)
          (problem_attachments (db w)) = Ok attachment
        ∧ pa_problem_id attachment
            ∈ map pi_problem_id (visible_problem_instances site (db w) request)
        ∧ pa_content attachment = content.
Proof.
  unfold problem_attachment_view, problem_attachment_view_func. run.
  unfold cond_and.
  destruct (contest_exists site (db w) request
            && can_enter_contest site (db w) request);
    [|split; [done|by intros [? _]]].
  destruct (get_object_or_404 _ _) as [a|] eqn:Hget; cbn beta iota;
    [|split; [done|by intros (_ & _ & a' & ? & _)]].
  destruct (bool_decide_reflect
              (pa_problem_id a
                 ∈ map pi_problem_id
                     (visible_problem_instances site (db w) request)))
    as [Hin|Hnotin]; cbn [negb].
  - split.
    + intros [= <- <-]. eauto 10.
    + intros (_ & -> & a' & [= <-] & _ & <-). done.
  - split; [done|]. intros (_ & _ & a' & [= <-] & Hin & _). done.
Qed.

End streaming.

(** ** What the submit, rejudge and change-kind views call *)

Section controller_calls.
Context (site : Site).

Import contests_views.

(** X3. The submit view leaves the world as it was, except on a POST with a
    valid form that passes both conditions: then it adds one
    [create_submission] call and nothing else. A request of another method
    is shown the unbound form, and a requester with no submittable problem
    the nothing-to-submit page. *)
Theorem submit_view_creates_at_most_one (contest_id : string)
    (request : Request) (w : World) :
  let entry :=
    cond_and (contest_exists site) (can_enter_contest site) (db w) request in
  let form := {| form_request := request;
                 form_data := Some (POST request, FILES request) |} in
  let cleaned_data := SubmissionForm_cleaned_data site (db w) form in
  let r := (submit_view site contest_id request w).1 in
  let w' := (submit_view site contest_id request w).2 in
  (w' = w
   ∨ (method request = "POST"
      ∧ entry = true
      ∧ has_any_submittable_problem site (db w) request = true
      ∧ SubmissionForm_is_valid site (db w) form = true
      ∧ r = Ok (redirect "my_submissions" [("contest_id", AStr contest_id)])
      ∧ messages w' = messages w
      ∧ outbox w' = outbox w
      ∧ calls w'
        = calls w
          ++ [CallCreateSubmission request (cd_problem_instance cleaned_data)
                cleaned_data]))
  ∧ (entry = true →
     has_any_submittable_problem site (db w) request = true →
     method request ≠ "POST" →
     r = Ok (TemplateResponse "contests/submit.html"
               [("form", VForm {| form_request := request;
                                  form_data := None |})]))
  ∧ (entry = true →
     has_any_submittable_problem site (db w) request = false →
     r = Ok (TemplateResponse "contests/nothing_to_submit.html" [])).
Proof.
  intros entry form cleaned_data r w'.
  unfold r, w', entry, submit_view, submit_view_func. clear r w' entry. run.
  destruct (contest_exists site (db w) request
            && can_enter_contest site (db w) request);
    [|split; [by left|by split]].
  destruct (has_any_submittable_problem site (db w) request);
    [|split; [by left|by split]].
  destruct (String.eqb_spec (method request) "POST") as [Hpost|Hget];
    [|split; [by left|by split]].
  fold form. split; [|by split].
  destruct (SubmissionForm_is_valid site (db w) form); [|by left].
  destruct (contest request); [|by left]. cbn. right. by repeat split.
Qed.

(** X4. When the submission cannot be fetched, the rejudge and change-kind
    views call nothing and write nothing; for a contest admin's POST the
    answer is what [get_submission_or_404] raised. *)
Theorem no_submission_no_controller_call
    (contest_id submission_id kind : string) (request : Request) (w : World)
    (e : exn) :
  get_submission_or_404 site (db w) request contest_id submission_id
  = Raise e →
  let admin :=
    cond_and (contest_exists site) (is_contest_admin site) (db w) request in
  (rejudge_submission_view site contest_id submission_id request w).2 = w
  ∧ (change_submission_kind_view site contest_id submission_id kind request
       w).2 = w
  ∧ (admin = true → method request = "POST" →
     rejudge_submission_view site contest_id submission_id request w
     = (Raise e, w)
     ∧ change_submission_kind_view site contest_id submission_id kind
         request w
       = (Raise e, w)).
Proof.
  intros Hsub admin. unfold admin. clear admin.
  unfold rejudge_submission_view, rejudge_submission_view_func,
    change_submission_kind_view, change_submission_kind_view_func. run.
  destruct (contest_exists site (db w) request
            && is_contest_admin site (db w) request); [|done].
  destruct (String.eqb_spec (method request) "POST"); [|done].
  cbn beta iota. by rewrite Hsub.
Qed.

End controller_calls.

(** ** Accepting a teacher, again and in vain *)

Section accepting.
Context (site : Site).

Import teachers_views acceptance.

(** The accept view once [get_or_create] has answered. *)
Lemma accept_teacher_view_after_get_or_create uid request w u t created rows :
  is_superuser (user request) = true →
  get_object_or_404 (λ u, (user_id u =? uid)%Z) (users (db w)) = Ok u →
  get_or_create (λ t, (teacher_user_id t =? user_id u)%Z) teacher_pk
    (λ pk, {| teacher_pk := pk; teacher_user_id := user_id u;
              teacher_is_active := Teacher_is_active_default site |})
    (teachers (db w)) = (Ok (t, created), rows) →
  teacher_user_id t = user_id u →
  accept_teacher_view site uid request w
  = (Ok (redirect "oioioiadmin:teachers_teacher_changelist" []),
     after_accept w u rows t).
Proof.
  intros Hsuper Hget Hgoc Huser.
  pose proof Hget as Hfilter. apply get_object_or_404_Ok in Hfilter.
  destruct (filter_singleton_In _ _ _ Hfilter) as [_ Huid%Z.eqb_eq].
  apply filter_singleton_find in Hfilter.
  unfold accept_teacher_view, accept_teacher_view_func,
    Teacher_get_or_create, send_acceptance_email, teacher_user. run.
  rewrite Hsuper, Hget. cbn beta iota. rewrite Hgoc. cbn.
  unfold after_accept. destruct (teacher_is_active t); cbn; [done|].
  by rewrite Huser, Huid, Hfilter.
Qed.

Lemma get_or_create_teacher_user u rows t created rows' :
  get_or_create (λ t, (teacher_user_id t =? user_id u)%Z) teacher_pk
    (λ pk, {| teacher_pk := pk; teacher_user_id := user_id u;
              teacher_is_active := Teacher_is_active_default site |})
    rows = (Ok (t, created), rows') →
  teacher_user_id t = user_id u
  ∧ List.filter (λ t, (teacher_user_id t =? user_id u)%Z) rows' = [t]
  ∧ (NoDup (map teacher_pk rows) → NoDup (map teacher_pk rows')).
Proof.
  unfold get_or_create.
  destruct (objects_get _ rows) as [|t0|] eqn:Hfound; [| |done].
  - intros [= <- <- <-]. apply objects_get_DoesNotExist in Hfound.
    split; [done|]. split.
    + rewrite List.filter_app, Hfound. cbn. by rewrite Z.eqb_refl.
    + intros Hnodup. rewrite map_app. apply NoDup_app.
      split; [done|]. split; [|apply NoDup_singleton].
      intros pk Hin%list_elem_of_In Hnew%list_elem_of_singleton.
      apply in_map_iff in Hin as (r & Hpk & Hr).
      pose proof (next_pk_fresh teacher_pk rows r Hr). cbn in *. lia.
  - intros [= <- <- <-]. apply objects_get_Got in Hfound.
    destruct (filter_singleton_In _ _ _ Hfound) as [_ ?%Z.eqb_eq]. done.
Qed.


(** X6. Accepting is idempotent: after an accept that succeeded, accepting the
    same user again sends no mail and writes nothing; it only tells that
    the user is already accepted. *)
Theorem accept_teacher_view_twice (uid : Z) (request : Request)
    (w w1 : World) (r : Response) :
  is_superuser (user request) = true →
  NoDup (map teacher_pk (teachers (db w))) →
  accept_teacher_view site uid request w = (Ok r, w1) →
  accept_teacher_view site uid request w1
  = (Ok (redirect "oioioiadmin:teachers_teacher_changelist" []),
     {| db := db w1;
        messages := messages w1
                    ++ [{| level := INFO;
                           message := Translated "User already accepted." |}];
        outbox := outbox w1; calls := calls w1 |}).
Proof.
  intros Hsuper Hnodup Hfirst.
  destruct (get_object_or_404 (λ u, (user_id u =? uid)%Z) (users (db w)))
    as [u|e] eqn:Hget.
  2:{ unfold accept_teacher_view, accept_teacher_view_func in Hfirst.
      revert Hfirst. run. by rewrite Hsuper, Hget. }
  destruct (get_or_create (λ t, (teacher_user_id t =? user_id u)%Z)
              teacher_pk
              (λ pk, {| teacher_pk := pk; teacher_user_id := user_id u;
                        teacher_is_active := Teacher_is_active_default site |})
              (teachers (db w))) as [[[t created]|e] rows] eqn:Hgoc.
  2:{ unfold accept_teacher_view, accept_teacher_view_func,
        Teacher_get_or_create in Hfirst.
      revert Hfirst. run. rewrite Hsuper, Hget. cbn beta iota.
      by rewrite Hgoc. }
  destruct (get_or_create_teacher_user _ _ _ _ _ Hgoc)
    as (Hu & Hfilter & Hnodup').
  rewrite (accept_teacher_view_after_get_or_create _ _ _ _ _ _ _
             Hsuper Hget Hgoc Hu) in Hfirst.
  injection Hfirst as _ <-.
  set (t1 := if teacher_is_active t then t else set_teacher_is_active true t).
  set (rows1 := if teacher_is_active t then rows
                else save teacher_pk (set_teacher_is_active true t) rows).
  assert (teachers (db (after_accept w u rows t)) = rows1
          ∧ users (db (after_accept w u rows t)) = users (db w)) as [Ht Hus].
  { unfold after_accept, rows1. by destruct (teacher_is_active t). }
  assert (List.filter (λ t, (teacher_user_id t =? user_id u)%Z) rows1 = [t1]
          ∧ teacher_is_active t1 = true ∧ teacher_user_id t1 = user_id u)
    as (Hfilter1 & Hactive1 & Hu1).
  { unfold rows1, t1. destruct (teacher_is_active t) eqn:Hactive; [done|].
    split; [|done].
    apply (filter_save_existing _ teacher_pk rows t); auto.
    cbn. rewrite Hu. apply Z.eqb_refl. }
  set (w1 := after_accept w u rows t) in *.
  assert (get_object_or_404 (λ u, (user_id u =? uid)%Z) (users (db w1)) = Ok u)
    as Hget1 by (by rewrite Hus).
  assert (get_or_create (λ t, (teacher_user_id t =? user_id u)%Z) teacher_pk
            (λ pk, {| teacher_pk := pk; teacher_user_id := user_id u;
                      teacher_is_active := Teacher_is_active_default site |})
            (teachers (db w1)) = (Ok (t1, false), rows1)) as Hgoc1.
  { rewrite Ht. unfold get_or_create.
    by rewrite (proj2 (objects_get_Got _ _ _) Hfilter1). }
  rewrite (accept_teacher_view_after_get_or_create _ _ _ _ _ _ _
             Hsuper Hget1 Hgoc1 Hu1).
  unfold after_accept at 1. rewrite Hactive1. rewrite <- Ht.
  by rewrite set_teachers_id.
Qed.

End accepting.

(** ** Switching registration on and off *)

Section switching.
Context (site : Site).

Import teachers_views.

Lemma of_request_contest_true request x :
  of_request_contest request x = true →
  ∃ c, contest request = Some c ∧ cid c = x.
Proof.
  unfold of_request_contest. intros H%bool_decide_eq_true_1.
  destruct (contest request) as [c|]; [|done]. exists c. by simplify_eq/=.
Qed.

Lemma save_existing_pks {A} (pk : A → Z) rows x x' :
  NoDup (map pk rows) → In x rows → pk x' = pk x →
  map pk (save pk x' rows) = map pk rows ∧ In x' (save pk x' rows).
Proof.
  intros Hnodup Hx Hpk.
  destruct (save_existing pk rows x x' Hnodup Hx Hpk) as [-> _]. split.
  - rewrite map_map. apply map_ext. intros r.
    by destruct (Z.eqb_spec (pk r) (pk x)) as [->|].
  - apply in_map_iff. exists x. by rewrite Z.eqb_refl.
Qed.

Lemma save_save {A} (pk : A → Z) rows x x1 x2 :
  NoDup (map pk rows) → In x rows → pk x1 = pk x → pk x2 = pk x →
  save pk x2 (save pk x1 rows) = save pk x2 rows.
Proof.
  intros Hnodup Hx H1 H2.
  destruct (save_existing_pks pk rows x x1 Hnodup Hx H1) as [Hpks Hx1].
  destruct (save_existing pk (save pk x1 rows) x1 x2) as [-> _];
    [by rewrite Hpks|done|congruence|].
  destruct (save_existing pk rows x x1 Hnodup Hx H1) as [-> _].
  destruct (save_existing pk rows x x2 Hnodup Hx H2) as [-> _].
  rewrite map_map. apply map_ext. intros r. rewrite H1.
  destruct (Z.eqb_spec (pk r) (pk x)) as [Heq|Hne].
  - by rewrite H1, Z.eqb_refl.
  - by destruct (Z.eqb_spec (pk r) (pk x)).
Qed.

(** The set-registration view of a contest admin, once the config is
    fetched. *)
Lemma set_registration_view_saves contest_id value request w cfg :
  is_contest_admin site (db w) request = true →
  get_object_or_404 (λ rc, of_request_contest request (rc_contest_id rc))
    (registration_configs (db w)) = Ok cfg →
  set_registration_view site contest_id value request w
  = (Ok (HttpResponseRedirect
           (reverse "oioioi.teachers.views.pupils_view"
              [("contest_id", AStr (rc_contest_id cfg))])),
     {| db := set_registration_configs
                (save rc_pk (set_rc_is_active value cfg)
                   (registration_configs (db w))) (db w);
        messages := messages w; outbox := outbox w; calls := calls w |}).
Proof.
  intros Hadmin Hget.
  pose proof Hget as Hfilter. apply get_object_or_404_Ok in Hfilter.
  destruct (filter_singleton_In _ _ _ Hfilter) as [_ Hlookup].
  destruct (of_request_contest_true _ _ Hlookup) as (c & Hc & Hcid).
  unfold set_registration_view, set_registration_view_func,
    redirect_to_pupils. run.
  rewrite Hadmin, Hget. cbn beta iota. rewrite Hc. cbn. by rewrite Hcid.
Qed.

(** X7. Of two settings in a row the last one wins: the world after setting
    [v1] and then [v2] is the world after setting [v2] at once. *)
Theorem set_registration_view_last_write_wins (contest_id : string)
    (v1 v2 : bool) (request : Request) (w : World) (cfg : RegistrationConfig) :
  is_contest_admin site (db w) request = true →
  is_contest_admin site
    (db (set_registration_view site contest_id v1 request w).2) request
  = true →
  NoDup (map rc_pk (registration_configs (db w))) →
  get_object_or_404 (λ rc, of_request_contest request (rc_contest_id rc))
    (registration_configs (db w)) = Ok cfg →
  set_registration_view site contest_id v2 request
    (set_registration_view site contest_id v1 request w).2
  = set_registration_view site contest_id v2 request w.
Proof.
  intros Hadmin Hadmin1 Hnodup Hget.
  pose proof Hget as Hfilter. apply get_object_or_404_Ok in Hfilter.
  destruct (filter_singleton_In _ _ _ Hfilter) as [Hin Hlookup].
  rewrite (set_registration_view_saves contest_id v1 request w cfg Hadmin Hget)
    in Hadmin1 |- *.
  cbn [snd] in Hadmin1 |- *.
  rewrite (set_registration_view_saves contest_id v2 request w cfg Hadmin Hget).
  erewrite (set_registration_view_saves contest_id v2 request _
              (set_rc_is_active v1 cfg) Hadmin1).
  - unfold set_registration_configs. cbn.
    change (set_rc_is_active v2 (set_rc_is_active v1 cfg))
      with (set_rc_is_active v2 cfg).
    by rewrite (save_save rc_pk _ cfg).
  - cbn. apply get_object_or_404_Ok.
    by apply (filter_save_existing _ rc_pk _ cfg).
Qed.


End switching.

(** ** The diff action and the order of the selection *)

Section diff_order.
Context (site : Site).

Import programs_admin.

(** X9. For two submissions of different dates the diff action does not depend
    on the order in which they were selected: the earlier one is
    [submission1_id] either way. *)
Theorem submission_diff_action_ignores_selection_order (request : Request)
    (a b : Submission) (w : World) (c : Contest) :
  contest request = Some c →
  (sub_date a < sub_date b)%Z →
  (∀ l, Permutation l [a; b] →
        Permutation (order_by_date site l) l
        ∧ Sorted (λ x y, (sub_date x ≤ sub_date y)%Z) (order_by_date site l)) →
  let diff := (Ok (redirect "source_diff"
                     [("contest_id", AStr (cid c));
                      ("submission1_id", AInt (sub_id a));
                      ("submission2_id", AInt (sub_id b))]), w) in
  submission_diff_action site request [a; b] w = diff
  ∧ submission_diff_action site request [b; a] w = diff.
Proof.
  intros Hc Hdate Horder diff.
  assert (∀ l, Permutation l [a; b] → order_by_date site l = [a; b]) as Hab.
  { intros l Hl. destruct (Horder l Hl) as [Hperm Hsorted].
    assert (Permutation [a; b] (order_by_date site l)) as Hperm'
      by (by rewrite Hperm, Hl).
    apply Permutation_length_2_inv in Hperm' as [Heq|Heq]; [done|].
    rewrite Heq in Hsorted.
    apply Sorted_inv in Hsorted as [_ Hhd]. apply HdRel_inv in Hhd. lia. }
  unfold submission_diff_action. cbn [length Nat.eqb negb].
  rewrite !Hab by (done || apply perm_swap). cbn [map]. run.
  by rewrite Hc.
Qed.

End diff_order.

(** ** The links of the admin inlines *)

Section inline_links.
Import programs_inlines.




End inline_links.

(** ** The problems list, the reports and the files of a contest *)

Section contest_pages_facts.
Context (site : Site) (store : Store).

Import contests_views contests_pages.

Lemma more_than_one_round (l : list Z) :
  (1 <? size (list_to_set l : gset Z))%nat = true
  ↔ ∃ x y, x ∈ l ∧ y ∈ l ∧ x ≠ y.
Proof.
  rewrite Nat.ltb_lt. split.
  - intros Hsize.
    destruct (size_pos_elem_of (list_to_set l : gset Z)) as [x Hx]; [lia|].
    assert ({[x]} ⊆ (list_to_set l : gset Z)) as Hsub
      by (by apply singleton_subseteq_l).
    pose proof (size_difference _ _ Hsub) as Hdiff.
    rewrite size_singleton in Hdiff.
    destruct (size_pos_elem_of ((list_to_set l : gset Z) ∖ {[x]}))
      as [y Hy]; [lia|].
    apply elem_of_difference in Hy as [Hy Hne].
    rewrite elem_of_singleton in Hne.
    apply elem_of_list_to_set in Hx, Hy. exists x, y. auto.
  - intros (x & y & Hx & Hy & Hne).
    assert ({[x]} ∪ {[y]} ⊆ (list_to_set l : gset Z)) as Hsub.
    { apply union_subseteq.
      split; apply singleton_subseteq_l; by apply elem_of_list_to_set. }
    apply subseteq_size in Hsub.
    rewrite size_union, !size_singleton in Hsub;
      [lia|by apply disjoint_singleton_l, not_elem_of_singleton].
Qed.

(** X11. The problems list shows the rounds exactly when two of the visible
    problem instances are of different rounds. *)
Theorem problems_list_view_show_rounds (contest_id : string)
    (request : Request) (w : World) :
  cond_and (contest_exists site) (can_enter_contest site) (db w) request
  = true →
  let problem_instances := visible_problem_instances site (db w) request in
  ∃ show_rounds,
    problems_list_view site contest_id request w
    = (Ok (Page "contests/problems_list.html"
             [("problem_instances", PProblemInstances problem_instances);
              ("show_rounds", PVal (VBool show_rounds))]), w)
    ∧ (show_rounds = true
       ↔ ∃ p q, In p problem_instances ∧ In q problem_instances
                ∧ pi_round_id p ≠ pi_round_id q).
Proof.
  intros Hcond problem_instances. eexists. split.
  - unfold problems_list_view, problems_list_view_func,
      enforce_condition_reply. run.
    unfold cond_and in Hcond. by rewrite Hcond.
  - fold problem_instances. rewrite more_than_one_round. split.
    + intros (x & y & Hx%list_elem_of_In & Hy%list_elem_of_In & Hne).
      apply in_map_iff in Hx as (p & <- & Hp).
      apply in_map_iff in Hy as (q & <- & Hq). eauto.
    + intros (p & q & Hp & Hq & Hne).
      exists (pi_round_id p), (pi_round_id q).
      split; [apply list_elem_of_In; by apply in_map|].
      split; [apply list_elem_of_In; by apply in_map|done].
Qed.

(** X12. The report view answers with the rendering of a report only for a
    contest admin, and only with a report of the submission named in the
    request: through the page of one submission no report of another can
    be read. It writes nothing. *)
Theorem report_view_renders_a_report_of_the_submission
    (contest_id submission_id : string) (rid : Z) (request : Request)
    (w w' : World) (body : string) :
  report_view site contest_id submission_id rid request w
  = (Ok (HttpResponse body), w') →
  cond_and (contest_exists site) (is_contest_admin site) (db w) request = true
  ∧ w' = w
  ∧ ∃ c submission report,
      contest request = Some c
      ∧ get_submission_or_404 site (db w) request contest_id submission_id
        = Ok submission
      ∧ In report (submission_reports (db w))
      ∧ report_submission_id report = sub_id submission
      ∧ report_id report = rid
      ∧ body = render_report (controller site c) (db w) request report.
Proof.
  unfold report_view, report_view_func, enforce_condition_reply. run.
  unfold cond_and.
  destruct (contest_exists site (db w) request
            && is_contest_admin site (db w) request); [|done].
  destruct (get_submission_or_404 _ _ _ _ _) as [submission|] eqn:Hsub;
    [|done]. cbn beta iota.
  destruct (contest request) as [c|]; [|done]. cbn beta iota.
  destruct (get_object_or_404 _ _) as [report|] eqn:Hreport; [|done].
  cbn. intros [= <- <-]. split; [done|]. split; [done|].
  exists c, submission, report.
  apply get_object_or_404_Ok, filter_singleton_In in Hreport
    as [[Hin Hs%Z.eqb_eq]%filter_In Hid%Z.eqb_eq].
  done.
Qed.

Lemma insort_str_perm {A} (f : A → string) x l :
  Permutation (insort_str f x l) (x :: l).
Proof.
  induction l as [|y l IH]; simpl; [done|].
  destruct (str_le (f x) (f y)); [done|].
  rewrite IH. apply perm_swap.
Qed.

Lemma sorted_str_perm {A} (f : A → string) l :
  Permutation (sorted_str f l) l.
Proof.
  induction l as [|x l IH]; simpl; [done|].
  change (Permutation (insort_str f x (sorted_str f l)) (x :: l)).
  by rewrite insort_str_perm, IH.
Qed.

Lemma insort_str_sorted {A} (f : A → string) x l :
  Sorted (λ a b, str_le (f a) (f b) = true) l →
  Sorted (λ a b, str_le (f a) (f b) = true) (insort_str f x l).
Proof.
  induction l as [|y l IH]; simpl; intros Hsorted.
  - by repeat constructor.
  - destruct (str_le (f x) (f y)) eqn:Hle.
    + constructor; [done|by constructor].
    + apply Sorted_inv in Hsorted as [Hsorted Hhd].
      constructor; [by apply IH|].
      assert (str_le (f y) (f x) = true) as Hyx
        by (destruct (str_le_total (f x) (f y)); congruence).
      destruct l as [|z l]; simpl; [by constructor|].
      destruct (str_le (f x) (f z)); constructor; [done|].
      by apply HdRel_inv in Hhd.
Qed.

Lemma sorted_str_sorted {A} (f : A → string) l :
  StronglySorted (λ a b, str_le (f a) (f b) = true) (sorted_str f l).
Proof.
  apply Sorted_StronglySorted.
  - intros a b c. apply str_le_trans.
  - induction l as [|x l IH]; [constructor|].
    by apply insort_str_sorted.
Qed.

(** X13. The files page lists one row for each attachment of the contest and
    for each attachment of a problem of a visible instance, and no other
    row; the rows are in the order of their names. *)
Theorem contest_files_view_lists_by_name (contest_id : string)
    (request : Request) (w : World) :
  cond_and (cond_and (not_anonymous store) (contest_exists site))
    (can_enter_contest site) (db w) request = true →
  let contest_files :=
    List.filter
      (λ cf, bool_decide (Some (ca_contest_id cf) = cid <$> contest request))
      (contest_attachments store) in
  let problem_files :=
    List.filter
      (λ pf, bool_decide
               (pa_problem_id pf
                  ∈ map pi_problem_id
                      (visible_problem_instances site (db w) request)))
      (problem_attachments (db w)) in
  ∃ rows,
    contest_files_view site store contest_id request w
    = (Ok (Page "contests/files.html" [("files", PFiles rows)]), w)
    ∧ StronglySorted (λ a b, str_le (row_name a) (row_name b) = true) rows
    ∧ Permutation rows
        (map (contest_file_row contest_id) contest_files
         ++ map (problem_file_row store contest_id) problem_files).
Proof.
  intros Hcond contest_files problem_files. eexists. split; [|split].
  - unfold contest_files_view, contest_files_view_func,
      enforce_condition_reply. run.
    unfold cond_and in Hcond. by rewrite Hcond.
  - apply sorted_str_sorted.
  - apply sorted_str_perm.
Qed.

Lemma filter_unique_key {A} (pk : A → Z) (q : A → bool) rows x :
  NoDup (map pk rows) → In x rows → q x = true →
  (∀ r, q r = true → pk r = pk x) →
  List.filter q rows = [x].
Proof.
  induction rows as [|a rows IH]; simpl; [done|].
  intros [Hnotin Hnodup]%NoDup_cons [->|Hin] Hqx Hkey.
  - rewrite Hqx. f_equal.
    clear IH. induction rows as [|b rows IH]; simpl; [done|].
    destruct (q b) eqn:Hqb.
    + destruct Hnotin. rewrite <- (Hkey b Hqb). apply elem_of_cons. by left.
    + apply IH; [|by apply NoDup_cons in Hnodup as [_ ?]].
      intros Hx. apply Hnotin. apply elem_of_cons. by right.
  - destruct (q a) eqn:Hqa; [|by apply IH].
    destruct Hnotin. rewrite (Hkey a Hqa).
    apply list_elem_of_In, in_map, Hin.
Qed.

(** X14. Every row of the files page leads to a download that the same
    requester is served: the link of an attachment of the contest to that
    attachment's content, the link of a problem's attachment to that
    attachment's content. *)
Theorem listed_files_can_be_downloaded (contest_id : string)
    (request : Request) (w w' : World) (c : Contest) (rows : list FileRow) :
  contest request = Some c →
  cid c = contest_id →
  NoDup (map ca_id (contest_attachments store)) →
  NoDup (map pa_id (problem_attachments (db w))) →
  contest_files_view site store contest_id request w
  = (Ok (Page "contests/files.html" [("files", PFiles rows)]), w') →
  ∀ row, In row rows →
    (∃ cf, row = contest_file_row contest_id cf
           ∧ contest_attachment_view site store contest_id (ca_id cf)
               request w
             = (Ok (StreamFile (ca_content cf)), w))
    ∨ (∃ pf, row = problem_file_row store contest_id pf
             ∧ problem_attachment_view site contest_id (pa_id pf) request w
               = (Ok (StreamFile (pa_content pf)), w)).
Proof.
  intros Hc Hcid Hcas Hpas Hpage row Hrow.
  unfold contest_files_view, contest_files_view_func,
    enforce_condition_reply in Hpage. revert Hpage. run.
  destruct (not_anonymous store (db w) request && _ && _) eqn:Hcond;
    [|done].
  intros [= <- <-].
  assert (contest_exists site (db w) request
          && can_enter_contest site (db w) request = true) as Hentry.
  { apply andb_true_iff in Hcond as [[_ ->]%andb_true_iff ->]. done. }
  apply (Permutation_in _ (sorted_str_perm row_name _)) in Hrow.
  apply in_app_or in Hrow as [Hrow|Hrow];
    apply in_map_iff in Hrow as (x & <- & Hx);
    apply filter_In in Hx as [Hx Hmatch]; [left|right]; exists x;
    (split; [done|]).
  - unfold contest_attachment_view, contest_attachment_view_func. run.
    rewrite Hentry.
    rewrite Hc in Hmatch. apply bool_decide_eq_true_1 in Hmatch.
    cbn in Hmatch. injection Hmatch as Hmatch.
    erewrite (proj2 (get_object_or_404_Ok _ _ x)); [done|].
    apply (filter_unique_key ca_id); auto.
    + rewrite Hmatch, Hcid, String.eqb_refl. apply Z.eqb_refl.
    + by intros r [_ ?%Z.eqb_eq]%andb_true_iff.
  - unfold problem_attachment_view, problem_attachment_view_func. run.
    rewrite Hentry.
    erewrite (proj2 (get_object_or_404_Ok _ _ x)).
    + cbn beta iota. by rewrite Hmatch.
    + apply (filter_unique_key pa_id); auto; [apply Z.eqb_refl|].
      by intros r ?%Z.eqb_eq.
Qed.

End contest_pages_facts.

(** ** The registration link and the key *)

Section registration_link.
Context (site : Site) (store : Store).

Import teachers_views teachers_pages.



(** X16. Regenerating the key keeps whether registration is active and changes
    the key of the config only; afterwards an activation with any other
    key, the old one among them, is answered with the error page of a
    wrong key, and nothing is written. *)
Theorem regenerate_key_view_replaces_the_key (contest_id key : string)
    (admin pupil : Request) (w : World) (cfg : RegistrationConfig) :
  contest pupil = contest admin →
  is_authenticated (user pupil) = true →
  is_contest_admin site (db w) admin = true →
  NoDup (map rc_pk (registration_configs (db w))) →
  get_object_or_404 (λ rc, of_request_contest admin (rc_contest_id rc))
    (registration_configs (db w)) = Ok cfg →
  let new_key := generate_key store (db w) cfg in
  let w1 := (regenerate_key_view site store contest_id admin w).2 in
  get_object_or_404 (λ rc, of_request_contest admin (rc_contest_id rc))
    (registration_configs (db w1))
  = Ok {| rc_pk := rc_pk cfg; rc_contest_id := rc_contest_id cfg;
          rc_is_active := rc_is_active cfg; rc_key := new_key |}
  ∧ (key ≠ new_key →
     activate_pupil_view site contest_id key pupil w1
     = (Ok (TemplateResponse "teachers/activation_error.html"
              [("key_ok", VBool false);
               ("registration_active", VBool (rc_is_active cfg))]), w1)).
Proof.
  intros Hsame Hauth Hadmin Hnodup Hget new_key w1.
  pose proof Hget as Hfilter. apply get_object_or_404_Ok in Hfilter.
  destruct (filter_singleton_In _ _ _ Hfilter) as [Hin Hlookup].
  destruct (of_request_contest_true _ _ Hlookup) as (c & Hc & Hcid).
  assert (registration_configs (db w1)
          = save rc_pk (set_rc_key new_key cfg) (registration_configs (db w)))
    as Hrows.
  { unfold w1, regenerate_key_view, regenerate_key_view_func,
      redirect_to_pupils. run.
    rewrite Hadmin, Hget. cbn beta iota. by rewrite Hc. }
  assert (get_object_or_404
            (λ rc, of_request_contest admin (rc_contest_id rc))
            (registration_configs (db w1)) = Ok (set_rc_key new_key cfg))
    as Hget1.
  { rewrite Hrows. apply get_object_or_404_Ok.
    by apply (filter_save_existing _ rc_pk _ cfg). }
  split; [exact Hget1|].
  intros Hne. unfold activate_pupil_view, activate_pupil_view_func. run.
  rewrite Hauth. unfold of_request_contest in Hget1 |- *. rewrite Hsame.
  rewrite Hget1. cbn beta iota. cbn [rc_key rc_is_active set_rc_key].
  destruct (String.eqb_spec new_key key) as [Heq|_]; [congruence|done].
Qed.

End registration_link.

(** ** Copying the pupils of another contest *)

Section bulk_add.
Context (site : Site) (store : Store).

Import teachers_views teachers_pages.





End bulk_add.

(** ** The other views at work *)

Section more_examples.
Import contests_views teachers_views programs_admin.
Import contests_pages teachers_pages Sample Sample_pages.

Lemma problem_statement_view_streams_only_visible_witness :
  cond_and (contest_exists the_site) (can_enter_contest the_site)
    (db the_world) (get_of pupil_user) = true
  ∧ ∃ c pi s,
      contest (get_of pupil_user) = Some c
      ∧ get_object_or_404
          (in_contest_with_name (db the_world) (contest (get_of pupil_user))
             "sum")
          (problem_instances (db the_world)) = Ok pi
      ∧ can_see_problem (controller the_site c) (db the_world)
          (get_of pupil_user) pi = true
      ∧ In s (problem_statements (db the_world))
      ∧ ps_problem_id s = pi_problem_id pi
      ∧ ps_content s = "sum/statement.txt".
Proof.
  exact (problem_statement_view_streams_only_visible the_site "c1" "sum"
           (get_of pupil_user) the_world the_world "sum/statement.txt"
           eq_refl).
Defined.

Lemma no_submission_no_controller_call_witness :
  (rejudge_submission_view the_site "c1" "99" post_of_root the_world).2
  = the_world
  ∧ (change_submission_kind_view the_site "c1" "99" "IGNORED" post_of_root
       the_world).2 = the_world
  ∧ rejudge_submission_view the_site "c1" "99" post_of_root the_world
    = (Raise Http404, the_world).
Proof.
  destruct (no_submission_no_controller_call the_site "c1" "99" "IGNORED"
              post_of_root the_world Http404 eq_refl)
    as (Hrejudge & Hchange & Hanswer).
  split; [exact Hrejudge|]. split; [exact Hchange|].
  exact (proj1 (Hanswer eq_refl eq_refl)).
Defined.

Lemma accept_teacher_view_twice_witness :
  accept_teacher_view the_site 8 post_of_root
    (accept_teacher_view the_site 8 post_of_root the_world).2
  = (Ok (redirect "oioioiadmin:teachers_teacher_changelist" []),
     {| db := db (accept_teacher_view the_site 8 post_of_root the_world).2;
        messages :=
          messages (accept_teacher_view the_site 8 post_of_root the_world).2
          ++ [{| level := INFO;
                 message := Translated "User already accepted." |}];
        outbox :=
          outbox (accept_teacher_view the_site 8 post_of_root the_world).2;
        calls :=
          calls (accept_teacher_view the_site 8 post_of_root the_world).2 |}).
Proof.
  apply (accept_teacher_view_twice the_site 8 post_of_root the_world _
           (redirect "oioioiadmin:teachers_teacher_changelist" [])).
  - reflexivity.
  - apply NoDup_singleton.
  - reflexivity.
Defined.

Lemma set_registration_view_last_write_wins_witness :
  set_registration_view the_site "c1" true post_of_root
    (set_registration_view the_site "c1" false post_of_root the_world).2
  = set_registration_view the_site "c1" true post_of_root the_world.
Proof.
  apply (set_registration_view_last_write_wins the_site "c1" false true
           post_of_root the_world
           {| rc_pk := 1; rc_contest_id := "c1"; rc_is_active := true;
              rc_key := "sesame" |}).
  - reflexivity.
  - reflexivity.
  - apply NoDup_singleton.
  - reflexivity.
Defined.


Lemma submission_diff_action_ignores_selection_order_witness :
  submission_diff_action the_site post_of_root [submission_b; submission_a]
    the_world
  = (Ok (redirect "source_diff"
           [("contest_id", AStr "c1"); ("submission1_id", AInt 32);
            ("submission2_id", AInt 31)]), the_world)
  ∧ submission_diff_action the_site post_of_root [submission_a; submission_b]
      the_world
    = (Ok (redirect "source_diff"
             [("contest_id", AStr "c1"); ("submission1_id", AInt 32);
              ("submission2_id", AInt 31)]), the_world).
Proof.
  apply (submission_diff_action_ignores_selection_order the_site post_of_root
           submission_b submission_a the_world the_contest).
  - reflexivity.
  - reflexivity.
  - intros l Hl. apply Permutation_sym, Permutation_length_2_inv in Hl.
    destruct Hl as [-> | ->].
    + split; [reflexivity|]. repeat constructor. vm_compute. discriminate.
    + split; [apply perm_swap|]. repeat constructor. vm_compute.
      discriminate.
Defined.

Lemma problems_list_view_show_rounds_witness :
  ∃ show_rounds,
    problems_list_view the_site "c1" (get_of pupil_user) the_world
    = (Ok (Page "contests/problems_list.html"
             [("problem_instances", PProblemInstances [a_problem_instance]);
              ("show_rounds", PVal (VBool show_rounds))]), the_world)
    ∧ (show_rounds = true
       ↔ ∃ p q, In p [a_problem_instance] ∧ In q [a_problem_instance]
                ∧ pi_round_id p ≠ pi_round_id q).
Proof.
  exact (problems_list_view_show_rounds the_site "c1" (get_of pupil_user)
           the_world eq_refl).
Defined.

Lemma report_view_renders_a_report_of_the_submission_witness :
  ∃ c submission report,
    contest (get_of root) = Some c
    ∧ get_submission_or_404 the_site (db the_world) (get_of root) "c1" "31"
      = Ok submission
    ∧ In report (submission_reports (db the_world))
    ∧ report_submission_id report = sub_id submission
    ∧ report_id report = 2
    ∧ "SUPERSEDED"
      = render_report (controller the_site c) (db the_world) (get_of root)
          report.
Proof.
  exact (proj2 (proj2 (report_view_renders_a_report_of_the_submission
                         the_site "c1" "31" 2 (get_of root) the_world
                         the_world "SUPERSEDED" eq_refl))).
Defined.

Lemma contest_files_view_lists_by_name_witness :
  ∃ rows,
    contest_files_view the_site the_store "c1" (get_of pupil_user) the_world
    = (Ok (Page "contests/files.html" [("files", PFiles rows)]), the_world)
    ∧ StronglySorted (λ a b, str_le (row_name a) (row_name b) = true) rows
    ∧ Permutation rows
        [contest_file_row "c1"
           {| ca_id := 1; ca_contest_id := "c1"; ca_filename := "rules.pdf";
              ca_description := "Rules"; ca_content := "c1/rules.pdf" |};
         problem_file_row the_store "c1"
           {| pa_id := 5; pa_problem_id := 10; pa_content := "sum/a.zip" |}].
Proof.
  exact (contest_files_view_lists_by_name the_site the_store "c1"
           (get_of pupil_user) the_world eq_refl).
Defined.

Lemma listed_files_can_be_downloaded_witness :
  contest_attachment_view the_site the_store "c1" 1 (get_of pupil_user)
    the_world
  = (Ok (StreamFile "c1/rules.pdf"), the_world)
  ∧ problem_attachment_view the_site "c1" 5 (get_of pupil_user) the_world
    = (Ok (StreamFile "sum/a.zip"), the_world).
Proof.
  assert (∀ row,
    In row
      [problem_file_row the_store "c1"
         {| pa_id := 5; pa_problem_id := 10; pa_content := "sum/a.zip" |};
       contest_file_row "c1"
         {| ca_id := 1; ca_contest_id := "c1"; ca_filename := "rules.pdf";
            ca_description := "Rules"; ca_content := "c1/rules.pdf" |}] →
    (∃ cf, row = contest_file_row "c1" cf
           ∧ contest_attachment_view the_site the_store "c1" (ca_id cf)
               (get_of pupil_user) the_world
             = (Ok (StreamFile (ca_content cf)), the_world))
    ∨ (∃ pf, row = problem_file_row the_store "c1" pf
             ∧ problem_attachment_view the_site "c1" (pa_id pf)
                 (get_of pupil_user) the_world
               = (Ok (StreamFile (pa_content pf)), the_world))) as Hrows.
  { apply (listed_files_can_be_downloaded the_site the_store "c1"
             (get_of pupil_user) the_world the_world the_contest).
    - reflexivity.
    - reflexivity.
    - apply NoDup_cons. split; [|apply NoDup_singleton].
      intros [=]%list_elem_of_singleton.
    - apply NoDup_cons. split; [|apply NoDup_singleton].
      intros [=]%list_elem_of_singleton.
    - reflexivity. }
  split; reflexivity.
Defined.


Lemma regenerate_key_view_replaces_the_key_witness :
  activate_pupil_view the_site "c1" "sesame" (get_of pupil_user)
    (regenerate_key_view the_site the_store "c1" post_of_root the_world).2
  = (Ok (TemplateResponse "teachers/activation_error.html"
           [("key_ok", VBool false); ("registration_active", VBool true)]),
     (regenerate_key_view the_site the_store "c1" post_of_root the_world).2).
Proof.
  refine (proj2 (regenerate_key_view_replaces_the_key the_site the_store "c1"
                   "sesame" post_of_root (get_of pupil_user) the_world
                   {| rc_pk := 1; rc_contest_id := "c1"; rc_is_active := true;
                      rc_key := "sesame" |}
                   eq_refl eq_refl eq_refl _ eq_refl) _).
  - apply NoDup_singleton.
  - vm_compute. discriminate.
Defined.


End more_examples.
